(** * SOTE content pipeline: admin panel (GitHub-backed CMS) and content loader

    A shallow embedding of the admin panel script (state, GitHub contents
    API calls, collection CRUD, settings, logout) and of the public content
    loader (renderNews / renderProjects / renderEvents).

    Conventions.
    - JSON values are the inductive [json]; a JS object is an association
      list from keys to values, a missing key reads as [None] (undefined).
    - Arrays that the panel mutates in place ([articles], [projects],
      [events]) and the settings object live in a store of the session and
      are handled through locations, so that two names for one array see
      each other's writes.
    - Asynchronous functions are computations over the session [World]
      which either return or throw; every [fetch] is appended to the list
      of requests issued and answered by the remote side [net]. One
      operation runs at a time: no other handler runs between an [await]
      and its continuation.
    - Of the page only the status line, the notifications, the login
      error and the visible screen are kept; the functions that write
      markup (renderNewsGrid, updateDashboard, loadSettings, ...) are
      left out, except for the list of records a grid shows. *)

From Stdlib Require Import ZArith Lia DecimalString Ascii String.
From Stdlib Require DecimalZ.
From stdpp Require Import base list strings option sorting.

Local Open Scope string_scope.
Set Warnings "-register-all".

(** ** JSON values and objects *)

Inductive json :=
| JNull
| JBool (b : bool)
| JNum (n : Z)
| JStr (s : string)
| JArr (xs : list json)
| JObj (fields : list (string * json)).

(** A JS object: keys in insertion order. *)
Definition jsobj := list (string * json).

(** A record of a collection (article, project or event). *)
Definition Item := jsobj.

(** [o.k]; [None] is [undefined]. *)
Fixpoint get (k : string) (o : jsobj) : option json :=
  match o with
  | [] => None
  | (k', v) :: o' => if String.eqb k k' then Some v else get k o'
  end.

(** [o.k = v] on an object: the key keeps its place, a new key goes last. *)
Fixpoint set (k : string) (v : json) (o : jsobj) : jsobj :=
  match o with
  | [] => [(k, v)]
  | (k', v') :: o' =>
      if String.eqb k k' then (k, v) :: o' else (k', v') :: set k v o'
  end.

(** JS truthiness of a value read from an object. *)
Definition truthy (v : option json) : bool :=
  match v with
  | None | Some JNull | Some (JBool false) | Some (JNum 0) | Some (JStr "") => false
  | Some _ => true
  end.

(** [v || d] where [d] is a string literal. *)
Definition or_str (v : option json) (d : string) : json :=
  match v with
  | Some x => if truthy v then x else JStr d
  | None => JStr d
  end.

(** ** Collection CRUD (the code shared by saveNews, saveProject, saveEvent
    and executeDelete) *)

Definition item_id (a : Item) : option json := get "id" a.

(** [a.id === id] for a string [id]. *)
Definition id_is (id : string) (a : Item) : bool :=
  match item_id a with
  | Some (JStr s) => String.eqb s id
  | _ => false
  end.

(** [Array.prototype.findIndex]; [None] stands for [-1]. *)
Fixpoint findIndex {A} (p : A -> bool) (l : list A) : option nat :=
  match l with
  | [] => None
  | x :: l' => if p x then Some 0 else S <$> findIndex p l'
  end.

(** The update of the array in saveNews / saveProject / saveEvent:
<<
    const existingIndex = articles.findIndex(a => a.id === id);
    if (existingIndex >= 0) { articles[existingIndex] = article; }
    else { articles.unshift(article); }
>> *)
Definition upsert (articles : list Item) (id : string) (article : Item) : list Item :=
  match findIndex (id_is id) articles with
  | Some existingIndex => <[existingIndex := article]> articles
  | None => article :: articles
  end.

(** [articles.filter(a => a.id !== id)] of executeDelete. *)
Definition remove (articles : list Item) (id : string) : list Item :=
  List.filter (fun a => negb (id_is id a)) articles.

(** [articles.find(a => a.id === id)] of editNews / showNewsDetail. *)
Definition findById (articles : list Item) (id : string) : option Item :=
  List.find (id_is id) articles.

(** JSON text of [Date.now()] inside a template literal. *)
Definition string_of_Z (n : Z) : string := NilZero.string_of_int (Z.to_int n).

(** Array elements read as records: an element that is not an object has
    no properties ([null] elements are outside the model). *)
Definition elements (xs : list json) : list Item :=
  map (fun x => match x with JObj o => o | _ => [] end) xs.

(** [data.<key>] when [data] is an object holding an array there. *)
Definition array_of (data : option json) (key : string) : option (list Item) :=
  match data with
  | Some (JObj o) =>
      match get key o with
      | Some (JArr xs) => Some (elements xs)
      | _ => None
      end
  | _ => None
  end.

(** ** Session state of the admin panel *)

Record Credentials := {
  username : string;
  repo : string;
  token : string;
  branch : string
}.

(** [{ username: '', repo: '', token: '', branch: 'main' }] *)
Definition no_credentials : Credentials :=
  {| username := ""; repo := ""; token := ""; branch := "main" |}.

Definition loc := nat.

(** The three collections; each has its file, its container key, the
    prefix of generated ids and the [type] tag used by confirmDelete. *)
Inductive Kind := News | Project | Event.

Definition kind_path (k : Kind) : string :=
  match k with
  | News => "content/news.json"
  | Project => "content/projects.json"
  | Event => "content/events.json"
  end.

Definition kind_key (k : Kind) : string :=
  match k with News => "articles" | Project => "projects" | Event => "events" end.

Definition kind_prefix (k : Kind) : string :=
  match k with News => "news-" | Project => "proj-" | Event => "evt-" end.

Definition kind_of_type (type : string) : option Kind :=
  if String.eqb type "news" then Some News
  else if String.eqb type "project" then Some Project
  else if String.eqb type "event" then Some Event
  else None.

Definition kind_label (k : Kind) : string :=
  match k with News => "Article" | Project => "Project" | Event => "Event" end.

Definition kind_noun (k : Kind) : string :=
  match k with News => "article" | Project => "project" | Event => "event" end.

(** A cached collection document [{ data: { <key>: array }, sha }]:
    [items] is the array under the container key ([None]: no such key),
    by reference. *)
Record CollDoc := { items : option loc; sha : option string }.

(** The cached settings document [{ data: object, sha }]: [config] is the
    settings object, by reference ([None]: [data] is not an object). *)
Record ConfDoc := { config : option loc; csha : option string }.

(** [state.content]; [None] is [null]. *)
Record Content := {
  siteConfig : option ConfDoc;
  news : option CollDoc;
  projects : option CollDoc;
  events : option CollDoc
}.

Definition no_content : Content :=
  {| siteConfig := None; news := None; projects := None; events := None |}.

Definition slot (k : Kind) (c : Content) : option CollDoc :=
  match k with News => news c | Project => projects c | Event => events c end.

Definition with_slot (k : Kind) (d : option CollDoc) (c : Content) : Content :=
  match k with
  | News => {| siteConfig := siteConfig c; news := d; projects := projects c; events := events c |}
  | Project => {| siteConfig := siteConfig c; news := news c; projects := d; events := events c |}
  | Event => {| siteConfig := siteConfig c; news := news c; projects := projects c; events := d |}
  end.

Definition with_siteConfig (d : option ConfDoc) (c : Content) : Content :=
  {| siteConfig := d; news := news c; projects := projects c; events := events c |}.

(** An entry of a directory listing. *)
Record FileEntry := { path : string; name : string; file_sha : string }.

(** ** Requests and responses of the contents API *)

Inductive Method := GET | PUT | DELETE.

(** The [body] of a PUT or DELETE: [content] is the document handed to
    JSON.stringify at the time of the call. *)
Record ReqBody := {
  message : string;
  body_content : option json;
  body_sha : option string;
  body_branch : string
}.

Record Request := {
  method : Method;
  url : string;
  authorization : string;
  body : option ReqBody
}.

(** What [response.json()] gives, by the shape of the payload. *)
Inductive Body :=
| BodyNotJson                                              (* response.json() rejects *)
| BodyError (error_message : option string)                (* { message } *)
| BodyFile (decoded : option json) (sha : option string)   (* { content, sha }: content after atob and JSON.parse, None if one of them throws *)
| BodyListing (files : list FileEntry)                     (* [ { path, name, sha }, ... ] *)
| BodyCommit (sha : option string).                        (* { content: { sha }, commit } *)

Record Response := { status : nat; payload : Body }.

(** [response.ok] *)
Definition ok (r : Response) : bool := ((200 <=? status r)%nat && (status r <=? 299)%nat)%bool.

Inductive FetchOutcome :=
| Rejected (reason : string)       (* the promise of fetch rejects *)
| Responded (r : Response).

(** ** The world of a session and computations over it *)

(** A thrown Error, by its message (the only part the panel reads). The
    messages of the errors the engine itself raises (TypeError,
    SyntaxError) are fixed to one representative text. *)
Inductive exn := JsError (msg : string).

Definition exn_message (e : exn) : string := match e with JsError m => m end.

Record World := {
  github : Credentials;                  (* state.github *)
  content : Content;                     (* state.content *)
  images : list FileEntry;               (* state.images *)
  arrays : list (list Item);             (* store of arrays *)
  objects : list jsobj;                  (* store of settings objects *)
  localStorage : option Credentials;     (* item 'sote_admin_auth' *)
  deleteContext : string * string;       (* { type, id } *)
  dashboard : bool;                      (* adminDashboard shown, loginScreen hidden *)
  loginError : string;
  syncStatus : string;
  toasts : list (string * string);       (* (message, type), oldest first *)
  requests : list Request                (* every fetch issued, oldest first *)
}.

Definition with_github (g : Credentials) (w : World) : World :=
  {| github := g; content := content w; images := images w; arrays := arrays w;
     objects := objects w; localStorage := localStorage w;
     deleteContext := deleteContext w; dashboard := dashboard w;
     loginError := loginError w; syncStatus := syncStatus w; toasts := toasts w;
     requests := requests w |}.

Definition with_content (c : Content) (w : World) : World :=
  {| github := github w; content := c; images := images w; arrays := arrays w;
     objects := objects w; localStorage := localStorage w;
     deleteContext := deleteContext w; dashboard := dashboard w;
     loginError := loginError w; syncStatus := syncStatus w; toasts := toasts w;
     requests := requests w |}.

Definition with_images (i : list FileEntry) (w : World) : World :=
  {| github := github w; content := content w; images := i; arrays := arrays w;
     objects := objects w; localStorage := localStorage w;
     deleteContext := deleteContext w; dashboard := dashboard w;
     loginError := loginError w; syncStatus := syncStatus w; toasts := toasts w;
     requests := requests w |}.

Definition with_arrays (a : list (list Item)) (w : World) : World :=
  {| github := github w; content := content w; images := images w; arrays := a;
     objects := objects w; localStorage := localStorage w;
     deleteContext := deleteContext w; dashboard := dashboard w;
     loginError := loginError w; syncStatus := syncStatus w; toasts := toasts w;
     requests := requests w |}.

Definition with_objects (o : list jsobj) (w : World) : World :=
  {| github := github w; content := content w; images := images w; arrays := arrays w;
     objects := o; localStorage := localStorage w;
     deleteContext := deleteContext w; dashboard := dashboard w;
     loginError := loginError w; syncStatus := syncStatus w; toasts := toasts w;
     requests := requests w |}.

Definition with_localStorage (s : option Credentials) (w : World) : World :=
  {| github := github w; content := content w; images := images w; arrays := arrays w;
     objects := objects w; localStorage := s;
     deleteContext := deleteContext w; dashboard := dashboard w;
     loginError := loginError w; syncStatus := syncStatus w; toasts := toasts w;
     requests := requests w |}.

Definition with_deleteContext (d : string * string) (w : World) : World :=
  {| github := github w; content := content w; images := images w; arrays := arrays w;
     objects := objects w; localStorage := localStorage w;
     deleteContext := d; dashboard := dashboard w;
     loginError := loginError w; syncStatus := syncStatus w; toasts := toasts w;
     requests := requests w |}.

Definition with_dashboard (b : bool) (w : World) : World :=
  {| github := github w; content := content w; images := images w; arrays := arrays w;
     objects := objects w; localStorage := localStorage w;
     deleteContext := deleteContext w; dashboard := b;
     loginError := loginError w; syncStatus := syncStatus w; toasts := toasts w;
     requests := requests w |}.

Definition with_loginError (e : string) (w : World) : World :=
  {| github := github w; content := content w; images := images w; arrays := arrays w;
     objects := objects w; localStorage := localStorage w;
     deleteContext := deleteContext w; dashboard := dashboard w;
     loginError := e; syncStatus := syncStatus w; toasts := toasts w;
     requests := requests w |}.

Definition with_syncStatus (s : string) (w : World) : World :=
  {| github := github w; content := content w; images := images w; arrays := arrays w;
     objects := objects w; localStorage := localStorage w;
     deleteContext := deleteContext w; dashboard := dashboard w;
     loginError := loginError w; syncStatus := s; toasts := toasts w;
     requests := requests w |}.

Definition with_toasts (t : list (string * string)) (w : World) : World :=
  {| github := github w; content := content w; images := images w; arrays := arrays w;
     objects := objects w; localStorage := localStorage w;
     deleteContext := deleteContext w; dashboard := dashboard w;
     loginError := loginError w; syncStatus := syncStatus w; toasts := t;
     requests := requests w |}.

Definition with_requests (r : list Request) (w : World) : World :=
  {| github := github w; content := content w; images := images w; arrays := arrays w;
     objects := objects w; localStorage := localStorage w;
     deleteContext := deleteContext w; dashboard := dashboard w;
     loginError := loginError w; syncStatus := syncStatus w; toasts := toasts w;
     requests := r |}.

(** The page as the script finds it when it is loaded. *)
Definition initial_world (saved : option Credentials) : World :=
  {| github := no_credentials; content := no_content; images := []; arrays := [];
     objects := []; localStorage := saved; deleteContext := ("", "");
     dashboard := false; loginError := ""; syncStatus := ""; toasts := [];
     requests := [] |}.

(** A computation either returns or throws, and leaves a world. *)
Inductive Res (A : Type) :=
| Ok (a : A)
| Throw (e : exn).
Arguments Ok {A} a.
Arguments Throw {A} e.

Definition M (A : Type) : Type := World -> Res A * World.

Definition ret {A} (a : A) : M A := fun w => (Ok a, w).

Definition bind {A B} (m : M A) (k : A -> M B) : M B :=
  fun w => match m w with
           | (Ok a, w') => k a w'
           | (Throw e, w') => (Throw e, w')
           end.

Definition throw {A} (e : exn) : M A := fun w => (Throw e, w).

(** [try { m } catch (error) { h error }] *)
Definition try_catch {A} (m : M A) (h : exn -> M A) : M A :=
  fun w => match m w with
           | (Ok a, w') => (Ok a, w')
           | (Throw e, w') => h e w'
           end.

Definition gets {A} (f : World -> A) : M A := fun w => (Ok (f w), w).

Definition modify (f : World -> World) : M unit := fun w => (Ok tt, f w).

Notation "'let*' x ':=' m 'in' k" := (bind m (fun x => k))
  (at level 10, x name, m at level 100, k at level 200).
Notation "m '>>' k" := (bind m (fun _ => k))
  (at level 100, k at level 200, right associativity).

(** The world a computation leaves, and what it returned. *)
Definition exec {A} (m : M A) (w : World) : World := snd (m w).
Definition result {A} (m : M A) (w : World) : Res A := fst (m w).

(** *** The stores *)

(** A new array ([[]], the result of [filter], or an array of a parsed
    document). *)
Definition alloc_array (xs : list Item) : M loc :=
  fun w => (Ok (length (arrays w)), with_arrays (arrays w ++ [xs]) w).

Definition read_array (l : loc) : M (list Item) :=
  gets (fun w => default [] (arrays w !! l)).

Definition write_array (l : loc) (xs : list Item) : M unit :=
  modify (fun w => with_arrays (<[l := xs]> (arrays w)) w).

Definition alloc_object (o : jsobj) : M loc :=
  fun w => (Ok (length (objects w)), with_objects (objects w ++ [o]) w).

Definition read_object (l : loc) : M jsobj :=
  gets (fun w => default [] (objects w !! l)).

Definition write_object (l : loc) (o : jsobj) : M unit :=
  modify (fun w => with_objects (<[l := o]> (objects w)) w).

(** The body of a cached collection document as JSON.stringify would see
    it now, with its revision: what the cache holds for that document. *)
Definition collection_view (w : World) (d : option CollDoc)
  : option (option (list Item) * option string) :=
  match d with
  | None => None
  | Some d => Some (match items d with
                    | Some l => Some (default [] (arrays w !! l))
                    | None => None
                    end, sha d)
  end.

Definition config_view (w : World) (d : option ConfDoc)
  : option (option jsobj * option string) :=
  match d with
  | None => None
  | Some d => Some (match config d with
                    | Some l => Some (default [] (objects w !! l))
                    | None => None
                    end, csha d)
  end.

(** The whole cache, by value. *)
Definition cache_view (w : World) :=
  (config_view w (siteConfig (content w)),
   collection_view w (news (content w)),
   collection_view w (projects (content w)),
   collection_view w (events (content w))).

(** *** Status line and notifications *)

Definition updateSyncStatus (status : string) : M unit :=
  modify (with_syncStatus status).

Definition showToast (message type : string) : M unit :=
  modify (fun w => with_toasts (toasts w ++ [(message, type)]) w).

(** ** The admin panel *)

Section Panel.

(** The remote side: the answer to a request, given the requests issued
    before it in this session. *)
Variable net : list Request -> Request -> FetchOutcome.

(** [await fetch(url, { method, headers, body })] *)
Definition fetch (r : Request) : M Response :=
  fun w =>
    let w' := with_requests (requests w ++ [r]) w in
    match net (requests w) r with
    | Rejected reason => (Throw (JsError reason), w')
    | Responded response => (Ok response, w')
    end.

(** [await response.json()] *)
Definition response_json (r : Response) : M Body :=
  match payload r with
  | BodyNotJson => throw (JsError "Unexpected token in JSON")
  | b => ret b
  end.

Definition contents_url (g : Credentials) (path : string) : string :=
  "https://api.github.com/repos/" ++ username g ++ "/" ++ repo g ++ "/contents/" ++ path.

Definition auth_header (g : Credentials) : string := "token " ++ token g.

(** *** Remote document store client *)

(** The four requests of the client, as the fetch calls build them. *)
Definition read_request (g : Credentials) (path : string) : Request :=
  {| method := GET;
     url := contents_url g path ++ "?ref=" ++ branch g;
     authorization := auth_header g;
     body := None |}.

Definition write_request (g : Credentials) (path : string) (text : json)
           (sha : option string) : Request :=
  {| method := PUT;
     url := contents_url g path;
     authorization := auth_header g;
     body := Some {| message := "Update " ++ path ++ " via SOTE Admin";
                     body_content := Some text;
                     body_sha := sha;
                     body_branch := branch g |} |}.

Definition list_request (g : Credentials) : Request :=
  {| method := GET;
     url := contents_url g "images" ++ "?ref=" ++ branch g;
     authorization := auth_header g;
     body := None |}.

Definition delete_request (g : Credentials) (path sha : string) : Request :=
  {| method := DELETE;
     url := contents_url g path;
     authorization := auth_header g;
     body := Some {| message := "Delete image via SOTE Admin";
                     body_content := None;
                     body_sha := Some sha;
                     body_branch := branch g |} |}.

(** What fetchContent returns: [{ data: JSON.parse(content), sha: data.sha }]. *)
Record Fetched := { fdata : json; fsha : option string }.

(** [async function fetchContent(path)] *)
Definition fetchContent (path : string) : M (option Fetched) :=
  let* g := gets github in
  try_catch
    (let* response := fetch (read_request g path) in
     if negb (ok response) then
       if (status response =? 404)%nat then ret None   (* File doesn't exist yet *)
       else throw (JsError ("Failed to fetch " ++ path))
     else
       let* data := response_json response in
       match data with
       | BodyFile (Some parsed) sha => ret (Some {| fdata := parsed; fsha := sha |})
       | _ => throw (JsError "invalid content")   (* atob or JSON.parse throws *)
       end)
    (fun error => (* console.error *) ret None).

(** The value of fetchContent for each outcome of its fetch. *)
Definition fetched_of (o : FetchOutcome) : option Fetched :=
  match o with
  | Rejected _ => None
  | Responded r =>
      if ok r then
        match payload r with
        | BodyFile (Some parsed) sha => Some {| fdata := parsed; fsha := sha |}
        | _ => None
        end
      else None
  end.

(** What is handed to saveContent as [content]: an object literal
    [{ <key>: array }] around an array of the store, or the settings
    object itself. *)
Inductive DocRef :=
| CollectionData (key : string) (arr : loc)
| ConfigData (obj : loc).

(** [JSON.stringify(content, null, 2)]: the document as the store holds
    it at this moment. *)
Definition stringify (c : DocRef) : M json :=
  match c with
  | CollectionData key arr =>
      let* xs := read_array arr in ret (JObj [(key, JArr (map JObj xs))])
  | ConfigData obj =>
      let* o := read_object obj in ret (JObj o)
  end.

(** [error.message || 'Failed to save content'] *)
Definition message_or (error : Body) (fallback : string) : string :=
  match error with
  | BodyError (Some m) => if String.eqb m "" then fallback else m
  | _ => fallback
  end.

(** [async function saveContent(path, content, sha)] *)
Definition saveContent (path : string) (content : DocRef) (sha : option string) : M Body :=
  let* g := gets github in
  let* text := stringify content in
  let* response := fetch (write_request g path text sha) in
  if negb (ok response) then
    let* error := response_json response in
    throw (JsError (message_or error "Failed to save content"))
  else
    response_json response.

(** [result.content.sha] on what saveContent returned. *)
Definition commit_sha_of (result : Body) : Res (option string) :=
  match result with
  | BodyCommit sha => Ok sha
  | BodyFile _ _ => Ok None       (* content is a string: its .sha is undefined *)
  | _ => Throw (JsError "Cannot read properties of undefined (reading 'sha')")
  end.

Definition commit_sha (result : Body) : M (option string) :=
  fun w => (commit_sha_of result, w).

Definition lower (c : ascii) : ascii :=
  let n := nat_of_ascii c in
  if ((65 <=? n) && (n <=? 90))%nat then ascii_of_nat (n + 32) else c.

Fixpoint lowercase (s : string) : string :=
  match s with
  | EmptyString => EmptyString
  | String c s' => String (lower c) (lowercase s')
  end.

Definition ends_with (suffix s : string) : bool :=
  let n := String.length s in
  let m := String.length suffix in
  ((m <=? n)%nat && String.eqb (substring (n - m) m s) suffix)%bool.

(** [/\.(jpg|jpeg|png|gif|webp|svg)$/i.test(f.name)] *)
Definition is_image_name (name : string) : bool :=
  existsb (fun ext => ends_with ext (lowercase name))
          [".jpg"; ".jpeg"; ".png"; ".gif"; ".webp"; ".svg"].

(** [async function loadImages()] *)
Definition loadImages : M unit :=
  let* g := gets github in
  try_catch
    (let* response := fetch (list_request g) in
     if ok response then
       let* files := response_json response in
       match files with
       | BodyListing fs =>
           modify (with_images (List.filter (fun f => is_image_name (name f)) fs))
       | _ => throw (JsError "files.filter is not a function")
       end
     else ret tt)
    (fun error => (* console.error *) ret tt).

(** [async function deleteImage(path, sha)]; [confirmed] is the answer
    to the confirm dialog. *)
Definition deleteImage (path sha : string) (confirmed : bool) : M unit :=
  if negb confirmed then ret tt
  else
    try_catch
      (updateSyncStatus "saving" >>
       let* g := gets github in
       let* response := fetch (delete_request g path sha) in
       if negb (ok response) then throw (JsError "Failed to delete image")
       else
         loadImages >>
         showToast "Image deleted!" "success" >>
         updateSyncStatus "synced")
      (fun error =>
         showToast ("Error deleting image: " ++ exn_message error) "error" >>
         updateSyncStatus "error").

(** *** Load-all *)

(** Storing a fetched collection document in the cache: the array under
    the container key, freshly made by JSON.parse, enters the store. *)
Definition intern_collection (k : Kind) (f : option Fetched) : M (option CollDoc) :=
  match f with
  | None => ret None
  | Some f =>
      match array_of (Some (fdata f)) (kind_key k) with
      | Some xs =>
          let* l := alloc_array xs in
          ret (Some {| items := Some l; sha := fsha f |})
      | None => ret (Some {| items := None; sha := fsha f |})
      end
  end.

(** Storing the fetched settings document in the cache. *)
Definition intern_config (f : option Fetched) : M (option ConfDoc) :=
  match f with
  | None => ret None
  | Some f =>
      match fdata f with
      | JObj o =>
          let* l := alloc_object o in
          ret (Some {| config := Some l; csha := fsha f |})
      | _ => ret (Some {| config := None; csha := fsha f |})
      end
  end.

(** [async function loadAllContent()]. The four reads are started in
    the order of the array given to Promise.all; none of them rejects. *)
Definition loadAllContent : M unit :=
  try_catch
    (updateSyncStatus "loading" >>
     let* siteConfig := fetchContent "content/site-config.json" in
     let* news := fetchContent "content/news.json" in
     let* projects := fetchContent "content/projects.json" in
     let* events := fetchContent "content/events.json" in
     let* siteConfig := intern_config siteConfig in
     let* news := intern_collection News news in
     let* projects := intern_collection Project projects in
     let* events := intern_collection Event events in
     modify (with_content {| siteConfig := siteConfig; news := news;
                             projects := projects; events := events |}) >>
     loadImages >>
     updateSyncStatus "synced"
     (* renderAllSections() *))
    (fun error =>
       showToast ("Error loading content: " ++ exn_message error) "error" >>
       updateSyncStatus "error").

(** *** Credential gate *)

(** [async function showDashboard()] *)
Definition showDashboard : M unit :=
  modify (with_dashboard true) >>
  loadAllContent
  (* updateDashboard() *).

(** The probe of handleLogin. *)
Definition probe_request (form : Credentials) : Request :=
  {| method := GET;
     url := "https://api.github.com/repos/" ++ username form ++ "/" ++ repo form;
     authorization := auth_header form;
     body := None |}.

(** [async function handleLogin(e)] with the trimmed values of the form
    ([branch] already defaulted to 'main'). *)
Definition handleLogin (form : Credentials) : M unit :=
  modify (with_loginError "") >>
  try_catch
    (let* response := fetch (probe_request form) in
     if negb (ok response) then
       throw (JsError "Invalid credentials or repository not found")
     else
       modify (with_github form) >>
       modify (with_localStorage (Some form)) >>
       showDashboard)
    (fun error => modify (with_loginError (exn_message error))).

(** [function logout()] *)
Definition logout : M unit :=
  modify (with_localStorage None) >>
  modify (with_github no_credentials) >>
  modify (with_dashboard false).

(** The DOMContentLoaded handler. *)
Definition init : M unit :=
  let* saved := gets localStorage in
  match saved with
  | Some auth => modify (with_github auth) >> showDashboard
  | None => ret tt
  end.

(** *** Save-one-record *)

(** The body shared by saveNews, saveProject and saveEvent: [formId] is
    the value of the hidden id field, [now] is [Date.now()], [fields]
    are the other properties of the record, read from the form. *)
Definition saveItem (k : Kind) (formId : string) (now : Z) (fields : jsobj) : M unit :=
  let id := if String.eqb formId "" then kind_prefix k ++ string_of_Z now else formId in
  let article := ("id", JStr id) :: fields in
  (* const articles = state.content.news?.data?.articles || []; *)
  let* cached := gets (fun w => slot k (content w) ≫= items) in
  let* articles := match cached with
                   | Some l => ret l
                   | None => alloc_array []
                   end in
  (* findIndex, then articles[existingIndex] = article or articles.unshift(article) *)
  let* current := read_array articles in
  write_array articles (upsert current id article) >>
  try_catch
    (updateSyncStatus "saving" >>
     let newsData := CollectionData (kind_key k) articles in
     let* sha := gets (fun w => slot k (content w) ≫= sha) in
     let* result := saveContent (kind_path k) newsData sha in
     let* sha' := commit_sha result in
     modify (fun w => with_content
               (with_slot k (Some {| items := Some articles; sha := sha' |}) (content w)) w) >>
     (* closeModal, renderNewsGrid, updateDashboard *)
     showToast (kind_label k ++ " saved successfully!") "success" >>
     updateSyncStatus "synced")
    (fun error =>
       showToast ("Error saving " ++ kind_noun k ++ ": " ++ exn_message error) "error" >>
       updateSyncStatus "error").

Record NewsForm := {
  newsId : string; newsTitle : string; newsDate : string; newsCategory : string;
  newsImage : string; newsExcerpt : string; newsContent : string;
  newsFeatured : bool; newsPublished : bool
}.

(** [async function saveNews(e)] *)
Definition saveNews (f : NewsForm) (now : Z) : M unit :=
  saveItem News (newsId f) now
    [("title", JStr (newsTitle f)); ("date", JStr (newsDate f));
     ("category", JStr (newsCategory f)); ("image", JStr (newsImage f));
     ("excerpt", JStr (newsExcerpt f)); ("content", JStr (newsContent f));
     ("featured", JBool (newsFeatured f)); ("published", JBool (newsPublished f))].

Record ProjectForm := {
  projectId : string; projectTitle : string; projectCategory : string;
  projectLocation : string; projectStatus : string; projectStartDate : string;
  projectEndDate : string; projectImage : string; projectDescription : string;
  projectFullDescription : string;
  projectImpact : list string;     (* the lines of the text area *)
  projectFeatured : bool; projectPublished : bool
}.

(** [value || null] *)
Definition or_null (value : string) : json :=
  if String.eqb value "" then JNull else JStr value.

Definition is_space (c : ascii) : bool :=
  let n := nat_of_ascii c in
  (((9 <=? n) && (n <=? 13)) || (n =? 32))%nat.

(** [i.trim()] is truthy: some character of the line is not white space. *)
Fixpoint has_text (line : string) : bool :=
  match line with
  | EmptyString => false
  | String c s => negb (is_space c) || has_text s
  end.

(** [async function saveProject(e)] *)
Definition saveProject (f : ProjectForm) (now : Z) : M unit :=
  saveItem Project (projectId f) now
    [("title", JStr (projectTitle f)); ("category", JStr (projectCategory f));
     ("location", JStr (projectLocation f)); ("status", JStr (projectStatus f));
     ("startDate", or_null (projectStartDate f)); ("endDate", or_null (projectEndDate f));
     ("image", JStr (projectImage f)); ("description", JStr (projectDescription f));
     ("fullDescription", JStr (projectFullDescription f));
     ("impact", JArr (map JStr (List.filter has_text (projectImpact f))));
     ("featured", JBool (projectFeatured f)); ("published", JBool (projectPublished f))].

Record EventForm := {
  eventId : string; eventTitle : string; eventDate : string; eventTime : string;
  eventLocation : string; eventImage : string; eventDescription : string;
  eventRegistration : string; eventFeatured : bool; eventPublished : bool
}.

(** [async function saveEvent(e)] *)
Definition saveEvent (f : EventForm) (now : Z) : M unit :=
  saveItem Event (eventId f) now
    [("title", JStr (eventTitle f)); ("date", JStr (eventDate f));
     ("time", JStr (eventTime f)); ("location", JStr (eventLocation f));
     ("image", JStr (eventImage f)); ("description", JStr (eventDescription f));
     ("registrationLink", JStr (eventRegistration f));
     ("featured", JBool (eventFeatured f)); ("published", JBool (eventPublished f))].

(** *** Save-settings *)

Record SettingsForm := {
  siteName : string; siteTagline : string; siteDescription : string;
  colorPrimary : string; colorSecondary : string; colorAccent : string;
  heroBadge : string; heroTitle : string; heroSubtitle : string;
  stat1Value : string; stat1Label : string; stat2Value : string;
  stat2Label : string; stat3Value : string; stat3Label : string;
  contactEmail : string; contactPhone : string; contactAddress : string;
  socialFacebook : string; socialTwitter : string; socialInstagram : string;
  socialLinkedin : string
}.

(** [v?.k] *)
Definition optional_get (v : option json) (k : string) : option json :=
  match v with
  | Some (JObj o) => get k o
  | _ => None
  end.

(** The assignments of saveSettings to the properties of [config], in
    the order of the source. *)
Definition apply_settings (f : SettingsForm) (config : jsobj) : jsobj :=
  let config := set "siteName" (JStr (siteName f)) config in
  let config := set "siteTagline" (JStr (siteTagline f)) config in
  let config := set "siteDescription" (JStr (siteDescription f)) config in
  let colors := get "colors" config in
  let config :=
    set "colors"
        (JObj [("primary", JStr (colorPrimary f));
               ("primaryLight", or_str (optional_get colors "primaryLight") "#2D7A5F");
               ("primaryDark", or_str (optional_get colors "primaryDark") "#0F2E25");
               ("secondary", JStr (colorSecondary f));
               ("accent", JStr (colorAccent f));
               ("accentLight", or_str (optional_get colors "accentLight") "#F4C77A")])
        config in
  (* config.hero = config.hero || {}; then three assignments to its
     properties, which do nothing when hero is a primitive or an array
     as far as JSON.stringify can see *)
  let hero_fields h :=
    set "subtitle" (JStr (heroSubtitle f))
        (set "title" (JStr (heroTitle f)) (set "badge" (JStr (heroBadge f)) h)) in
  let hero :=
    match get "hero" config with
    | Some (JObj h) => JObj (hero_fields h)
    | Some v => if truthy (Some v) then v else JObj (hero_fields [])
    | None => JObj (hero_fields [])
    end in
  let config := set "hero" hero config in
  let stat v l := JObj [("value", JStr v); ("label", JStr l)] in
  let config :=
    set "stats" (JArr [stat (stat1Value f) (stat1Label f);
                       stat (stat2Value f) (stat2Label f);
                       stat (stat3Value f) (stat3Label f)]) config in
  let config :=
    set "contact" (JObj [("email", JStr (contactEmail f));
                         ("phone", JStr (contactPhone f));
                         ("address", JStr (contactAddress f))]) config in
  set "social" (JObj [("facebook", JStr (socialFacebook f));
                      ("twitter", JStr (socialTwitter f));
                      ("instagram", JStr (socialInstagram f));
                      ("linkedin", JStr (socialLinkedin f))]) config.

(** [async function saveSettings()] *)
Definition saveSettings (f : SettingsForm) : M unit :=
  (* const config = state.content.siteConfig?.data || {}; *)
  let* cached := gets (fun w => siteConfig (content w) ≫= config) in
  let* config := match cached with
                 | Some l => ret l
                 | None => alloc_object []
                 end in
  let* current := read_object config in
  write_object config (apply_settings f current) >>
  try_catch
    (updateSyncStatus "saving" >>
     let* sha := gets (fun w => siteConfig (content w) ≫= csha) in
     let* result := saveContent "content/site-config.json" (ConfigData config) sha in
     let* sha' := commit_sha result in
     modify (fun w => with_content
               (with_siteConfig (Some {| config := Some config; csha := sha' |})
                                (content w)) w) >>
     showToast "Settings saved successfully!" "success" >>
     updateSyncStatus "synced")
    (fun error =>
       showToast ("Error saving settings: " ++ exn_message error) "error" >>
       updateSyncStatus "error").

(** *** Delete-one-record *)

(** [function confirmDelete(type, id)] *)
Definition confirmDelete (type id : string) : M unit :=
  modify (with_deleteContext (type, id)).

(** [async function executeDelete()] *)
Definition executeDelete : M unit :=
  let* ctx := gets deleteContext in
  let type := fst ctx in
  let id := snd ctx in
  try_catch
    (updateSyncStatus "saving" >>
     match kind_of_type type with
     | Some k =>
         (* state.content.news.data.articles.filter(a => a.id !== id) *)
         let* cached := gets (fun w => slot k (content w) ≫= items) in
         match cached with
         | None => throw (JsError "Cannot read properties of null")
         | Some l =>
             let* current := read_array l in
             let* articles := alloc_array (remove current id) in
             let newsData := CollectionData (kind_key k) articles in
             let* sha := gets (fun w => slot k (content w) ≫= sha) in
             let* result := saveContent (kind_path k) newsData sha in
             let* sha' := commit_sha result in
             modify (fun w => with_content
                       (with_slot k (Some {| items := Some articles; sha := sha' |})
                                  (content w)) w)
             (* renderNewsGrid() *)
         end
     | None => ret tt
     end >>
     (* closeModal, updateDashboard *)
     showToast "Item deleted successfully!" "success" >>
     updateSyncStatus "synced")
    (fun error =>
       showToast ("Error deleting item: " ++ exn_message error) "error" >>
       updateSyncStatus "error").

(** The records shown, each with its Edit and Delete buttons, by
    renderNewsGrid / renderProjectsGrid / renderEventsGrid:
    [state.content.news?.data?.articles || []]. *)
Definition grid (k : Kind) (w : World) : list Item :=
  match slot k (content w) ≫= items with
  | Some l => default [] (arrays w !! l)
  | None => []
  end.

End Panel.

(** ** The client's calls, by the answer of the remote side *)

(** The document JSON.stringify sees for [c] in the world [w]. *)
Definition doc_json (w : World) (c : DocRef) : json :=
  match c with
  | CollectionData key arr => JObj [(key, JArr (map JObj (default [] (arrays w !! arr))))]
  | ConfigData obj => JObj (default [] (objects w !! obj))
  end.

(** The message of the Error saveContent throws on a response that is
    not ok. *)
Definition rejection_message (b : Body) : string :=
  match b with
  | BodyNotJson => "Unexpected token in JSON"
  | b => message_or b "Failed to save content"
  end.

(** What saveContent returns or throws for each outcome of its fetch. *)
Definition saved_of (o : FetchOutcome) : Res Body :=
  match o with
  | Rejected reason => Throw (JsError reason)
  | Responded r =>
      if ok r then
        match payload r with
        | BodyNotJson => Throw (JsError "Unexpected token in JSON")
        | b => Ok b
        end
      else Throw (JsError (rejection_message (payload r)))
  end.

(** The revision a save stores in the cache, or what it throws, for each
    outcome of the fetch of saveContent. *)
Definition save_result (o : FetchOutcome) : Res (option string) :=
  match saved_of o with
  | Ok b => commit_sha_of b
  | Throw e => Throw e
  end.

(** [state.images] after loadImages, for each outcome of its fetch. *)
Definition images_of (o : FetchOutcome) (old : list FileEntry) : list FileEntry :=
  match o with
  | Rejected _ => old
  | Responded r =>
      if ok r then
        match payload r with
        | BodyListing fs => List.filter (fun f => is_image_name (name f)) fs
        | _ => old
        end
      else old
  end.

(** The cache entry, by value, that a fetched document gives. *)
Definition collection_entry (k : Kind) (f : option Fetched)
  : option (option (list Item) * option string) :=
  match f with
  | None => None
  | Some f => Some (array_of (Some (fdata f)) (kind_key k), fsha f)
  end.

Definition config_entry (f : option Fetched) : option (option jsobj * option string) :=
  match f with
  | None => None
  | Some f => Some (match fdata f with JObj o => Some o | _ => None end, fsha f)
  end.

(** The cache entry made for a fetched collection document when the next
    free location of the array store is [n], and the arrays added to the
    store for it. *)
Definition coll_doc (k : Kind) (f : option Fetched) (n : loc) : option CollDoc :=
  match f with
  | None => None
  | Some f =>
      Some {| items := match array_of (Some (fdata f)) (kind_key k) with
                       | Some _ => Some n
                       | None => None
                       end;
              sha := fsha f |}
  end.

Definition coll_new (k : Kind) (f : option Fetched) : list (list Item) :=
  match f with
  | None => []
  | Some f =>
      match array_of (Some (fdata f)) (kind_key k) with
      | Some xs => [xs]
      | None => []
      end
  end.

Definition conf_doc (f : option Fetched) (n : loc) : option ConfDoc :=
  match f with
  | None => None
  | Some f =>
      Some {| config := match fdata f with JObj _ => Some n | _ => None end;
              csha := fsha f |}
  end.

Definition conf_new (f : option Fetched) : list jsobj :=
  match f with
  | None => []
  | Some f => match fdata f with JObj o => [o] | _ => [] end
  end.


(** The id saveItem saves under and the record it builds. *)
Definition record_id (k : Kind) (formId : string) (now : Z) : string :=
  if String.eqb formId "" then kind_prefix k ++ string_of_Z now else formId.

Definition record_of (k : Kind) (formId : string) (now : Z) (fields : jsobj) : Item :=
  ("id", JStr (record_id k formId now)) :: fields.

(** Every location held by the cache is a location of the stores. *)
Definition cache_in_store (w : World) : Prop :=
  (forall k d l, slot k (content w) = Some d -> items d = Some l -> l < length (arrays w))
  /\ (forall d l, siteConfig (content w) = Some d -> config d = Some l -> l < length (objects w)).

(** ** The public content loader *)

Module Site.

(** [options]: [featured] is the truth value of [options.featured],
    [limit] is [options.limit], 0 when absent. *)
Record Options := { featured : bool; limit : Z }.

Definition no_options : Options := {| featured := false; limit := 0 |}.


(** [a.published !== false] *)
Definition published (a : Item) : bool :=
  match get "published" a with
  | Some (JBool false) => false
  | _ => true
  end.

(** [a.featured] as a condition *)
Definition is_featured (a : Item) : bool := truthy (get "featured" a).

(** [l.slice(0, n)] *)
Definition slice0 {A} (n : Z) (l : list A) : list A :=
  if (n <? 0)%Z then take (Z.to_nat (Z.of_nat (length l) + n)) l
  else take (Z.to_nat n) l.

(** Stable sort by a comparator, as Array.prototype.sort does for a
    consistent comparator. *)
Fixpoint insert {A} (cmp : A -> A -> Z) (x : A) (l : list A) : list A :=
  match l with
  | [] => [x]
  | y :: l' => if (cmp x y <=? 0)%Z then x :: l else y :: insert cmp x l'
  end.

Definition sort {A} (cmp : A -> A -> Z) (l : list A) : list A :=
  foldr (insert cmp) [] l.

Section Loader.

(** The site's server: the JSON of [content/<filename>], given the
    files requested before; [None] when the response is not ok, the
    request fails or the text is not JSON. *)
Variable site_net : list string -> string -> option json.

(** [Date.parse] on a string; [None] is NaN. *)
Variable Date_parse : string -> option Z.

Record SiteWorld := {
  cache : jsobj;                (* const cache = {} *)
  fetched : list string         (* URLs requested, oldest first *)
}.

(** [async function fetchContent(filename)] *)
Definition fetchContent (filename : string) (w : SiteWorld)
  : option json * SiteWorld :=
  if truthy (get filename (cache w)) then (get filename (cache w), w)
  else
    let url := "content/" ++ filename in
    match site_net (fetched w) url with
    | Some data =>
        (Some data, {| cache := set filename data (cache w);
                       fetched := fetched w ++ [url] |})
    | None =>
        (None, {| cache := cache w; fetched := fetched w ++ [url] |})
    end.

(** The filtering of renderNews and renderProjects. *)
Definition select (articles : list Item) (options : Options) : list Item :=
  let articles := List.filter published articles in
  let articles := if featured options then List.filter is_featured articles
                  else articles in
  if (limit options =? 0)%Z then articles else slice0 (limit options) articles.



(** The time value of [new Date(v)]; [None] is an invalid date. The
    string forms of arrays and objects are not modelled. *)
Definition date_of (v : option json) : option Z :=
  match v with
  | None => None
  | Some JNull => Some 0%Z
  | Some (JBool b) => Some (if b then 1 else 0)%Z
  | Some (JNum n) =>
      if (Z.abs n <=? 8640000000000000)%Z then Some n else None
  | Some (JStr s) => Date_parse s
  | Some (JArr _) | Some (JObj _) => None
  end.

(** [e.published !== false && new Date(e.date) >= now] *)
Definition upcoming (now : Z) (e : Item) : bool :=
  published e &&
  match date_of (get "date" e) with
  | Some t => (now <=? t)%Z
  | None => false
  end.

(** [(a, b) => new Date(a.date) - new Date(b.date)]; sort reads NaN
    as +0. *)
Definition by_date (a b : Item) : Z :=
  match date_of (get "date" a), date_of (get "date" b) with
  | Some x, Some y => (x - y)%Z
  | _, _ => 0%Z
  end.

(** The time an event is sorted under, and the order of the cards:
    [a] is not after [b]. *)
Definition time_of (e : Item) : option Z := date_of (get "date" e).



(** The events shown by renderEvents, in order. *)
Definition select_events (now : Z) (events : list Item) (options : Options)
  : list Item :=
  let events := sort by_date (List.filter (upcoming now) events) in
  if (limit options =? 0)%Z then events else slice0 (limit options) events.


End Loader.

(** *** Dates of the form YYYY-MM-DD

    The value ECMAScript fixes for [Date.parse] on the date-only ISO
    form written by a date input: midnight UTC of that day, in
    milliseconds. Other strings are left invalid here. *)







End Site.

(** ** Example sessions *)

Module Examples.

Definition admin : Credentials :=
  {| username := "sote"; repo := "website"; token := "ghp_example"; branch := "main" |}.

Definition old_article : Item :=
  [("id", JStr "news-1"); ("title", JStr "Tree planting"); ("published", JBool true)].

(** A session in which news.json was read at revision "abc" with one
    article; the other documents do not exist yet. *)
Definition loaded : World :=
  {| github := admin;
     content := {| siteConfig := None;
                   news := Some {| items := Some 0; sha := Some "abc" |};
                   projects := None; events := None |};
     images := [];
     arrays := [[old_article]];
     objects := [];
     localStorage := Some admin;
     deleteContext := ("", "");
     dashboard := true;
     loginError := "";
     syncStatus := "synced";
     toasts := [];
     requests := [] |}.

Definition cleanup_form : NewsForm :=
  {| newsId := ""; newsTitle := "Cleanup Day"; newsDate := "2030-05-01";
     newsCategory := "Environment"; newsImage := ""; newsExcerpt := "";
     newsContent := ""; newsFeatured := false; newsPublished := true |}.

Definition cleanup_article : Item :=
  [("id", JStr "news-1700000000000"); ("title", JStr "Cleanup Day");
   ("date", JStr "2030-05-01"); ("category", JStr "Environment");
   ("image", JStr ""); ("excerpt", JStr ""); ("content", JStr "");
   ("featured", JBool false); ("published", JBool true)].

(** The article [old_article] after an edit of its title. *)
Definition edited_article : Item :=
  [("id", JStr "news-1"); ("title", JStr "Tree planting day"); ("published", JBool true)].

(** The store has moved on: every write is answered 409. *)
Definition conflict : Response :=
  {| status := 409; payload := BodyError (Some "content/news.json does not match abc") |}.

Definition stale_store (history : list Request) (r : Request) : FetchOutcome :=
  match method r with
  | GET => Responded {| status := 404; payload := BodyError (Some "Not Found") |}
  | _ => Responded conflict
  end.


(** A repository without content files that accepts every write at
    revision "r1" and lists no image. *)
Definition empty_store (history : list Request) (r : Request) : FetchOutcome :=
  match method r with
  | GET => Responded {| status := 404; payload := BodyError (Some "Not Found") |}
  | _ => Responded {| status := 201; payload := BodyCommit (Some "r1") |}
  end.


(** Every request is refused for want of credentials. *)
Definition unauthorized : Response :=
  {| status := 401; payload := BodyError (Some "Bad credentials") |}.

Definition deny (history : list Request) (r : Request) : FetchOutcome :=
  Responded unauthorized.

(** The repository serves one news document and accepts the probe of
    the login form. *)
Definition news_file : Response :=
  {| status := 200;
     payload := BodyFile (Some (JObj [("articles", JArr [JObj old_article])])) (Some "abc") |}.

Definition one_news (history : list Request) (r : Request) : FetchOutcome :=
  if String.eqb (url r) (url (read_request admin "content/news.json"))
  then Responded news_file
  else if String.eqb (url r) (url (probe_request admin))
  then Responded {| status := 200; payload := BodyError None |}
  else Responded {| status := 404; payload := BodyError (Some "Not Found") |}.


Definition settings_form : SettingsForm :=
  {| siteName := "SOTE"; siteTagline := ""; siteDescription := "";
     colorPrimary := "#112233"; colorSecondary := "#4A9C6D"; colorAccent := "#E8A849";
     heroBadge := ""; heroTitle := ""; heroSubtitle := "";
     stat1Value := ""; stat1Label := ""; stat2Value := ""; stat2Label := "";
     stat3Value := ""; stat3Label := "";
     contactEmail := ""; contactPhone := ""; contactAddress := "";
     socialFacebook := ""; socialTwitter := ""; socialInstagram := "";
     socialLinkedin := "" |}.

(** The session [loaded] with a settings document read at revision
    "c1". *)
Definition configured : World :=
  with_objects [[("siteName", JStr "Old name")]]
    (with_content (with_siteConfig (Some {| config := Some 0; csha := Some "c1" |})
                                   (content loaded)) loaded).

(** Two events stored newest first, the later one saved last. *)
Definition soon : Item :=
  [("id", JStr "evt-1"); ("title", JStr "Cleanup"); ("date", JStr "2030-03-01")].
Definition later : Item :=
  [("id", JStr "evt-2"); ("title", JStr "Planting"); ("date", JStr "2031-06-01")].

Definition stored_events : list Item := upsert (upsert [] "evt-1" soon) "evt-2" later.

Definition events_site (history : list string) (url : string) : option json :=
  if String.eqb url "content/events.json"
  then Some (JObj [("events", JArr (map JObj stored_events))])
  else None.

Definition fresh_page : Site.SiteWorld := {| Site.cache := []; Site.fetched := [] |}.

End Examples.

(** ** Further definitions *)

#[global] Instance Kind_eq_dec : EqDecision Kind.
Proof. solve_decision. Defined.


(** The five requests of Load-all under the credentials [g], in order. *)
Definition load_requests (g : Credentials) : list Request :=
  [read_request g "content/site-config.json";
   read_request g "content/news.json";
   read_request g "content/projects.json";
   read_request g "content/events.json";
   list_request g].

(** Every entry of the image list has the name of an image file. *)
Definition all_images (fs : list FileEntry) : Prop :=
  Forall (fun f => is_image_name (name f) = true) fs.

(** *** The name an uploaded image is stored under (uploadImage)

    Strings are sequences of code units; [filename_char] is the class
    [[a-zA-Z0-9.-]] of the pattern. *)

Definition filename_char (c : ascii) : bool :=
  let n := nat_of_ascii c in
  (((65 <=? n) && (n <=? 90)) || ((97 <=? n) && (n <=? 122))
   || ((48 <=? n) && (n <=? 57)) || (n =? 46) || (n =? 45))%nat.

(** [name.replace(/[^a-zA-Z0-9.-]/g, '-')] *)
Fixpoint replace_unsafe (name : string) : string :=
  match name with
  | EmptyString => EmptyString
  | String c rest => String (if filename_char c then c else "-"%char) (replace_unsafe rest)
  end.

(** [const filename = file.name.replace(/[^a-zA-Z0-9.-]/g, '-').toLowerCase()] *)
Definition upload_filename (name : string) : string :=
  lowercase (replace_unsafe name).

(** [const path = `images/${filename}`] *)
Definition upload_path (name : string) : string := "images/" ++ upload_filename name.

(** A lower-case letter, a digit, a dot or a hyphen. *)
Definition stored_char (c : ascii) : bool :=
  let n := nat_of_ascii c in
  (((97 <=? n) && (n <=? 122)) || ((48 <=? n) && (n <=? 57)) || (n =? 46) || (n =? 45))%nat.

Fixpoint all_chars (p : ascii -> bool) (s : string) : bool :=
  match s with
  | EmptyString => true
  | String c rest => p c && all_chars p rest
  end.

(** The keys saveSettings assigns. *)
Definition settings_keys : list string :=
  ["siteName"; "siteTagline"; "siteDescription"; "colors"; "hero"; "stats";
   "contact"; "social"].

(** The characters of the extensions in the pattern of loadImages. *)
Definition letter_or_dot (c : ascii) : bool :=
  let n := nat_of_ascii c in
  (((97 <=? n) && (n <=? 122)) || (n =? 46))%nat.

(** The events whose date has the time value [t]. *)
Definition at_time (Date_parse : string -> option Z) (t : Z) (e : Item) : bool :=
  bool_decide (Site.time_of Date_parse e = Some t).

(** ** Further example sessions *)

Module Sessions.

(** The network is down: every request fails. *)
Definition offline (history : list Request) (r : Request) : FetchOutcome :=
  Rejected "Failed to fetch".

(** The fields of the form [Examples.cleanup_form]. *)
Definition cleanup_fields : jsobj :=
  [("title", JStr "Cleanup Day"); ("date", JStr "2030-05-01");
   ("category", JStr "Environment"); ("image", JStr "");
   ("excerpt", JStr ""); ("content", JStr "");
   ("featured", JBool false); ("published", JBool true)].

(** The same form sent a millisecond later. *)
Definition second_article : Item :=
  ("id", JStr "news-1700000000001") :: cleanup_fields.

(** [Examples.cleanup_article] with another title. *)
Definition retitled_article : Item :=
  [("id", JStr "news-1700000000000"); ("title", JStr "Cleanup Weekend")].

(** The session [Examples.loaded] after the delete button of the
    article news-1 was pressed. *)
Definition delete_pending : World :=
  with_deleteContext ("news", "news-1") Examples.loaded.

(** The images folder holds a photo and a text file. *)
Definition photo : FileEntry :=
  {| path := "images/a.png"; name := "a.png"; file_sha := "s1" |}.

Definition notes : FileEntry :=
  {| path := "images/notes.txt"; name := "notes.txt"; file_sha := "s2" |}.

Definition with_photo : World := with_images [photo] Examples.loaded.

(** A store that lists the images folder and accepts every change. *)
Definition gallery (history : list Request) (r : Request) : FetchOutcome :=
  match method r with
  | GET => Responded {| status := 200; payload := BodyListing [notes; photo] |}
  | _ => Responded {| status := 200; payload := BodyCommit (Some "r2") |}
  end.

End Sessions.
(** ** Lemmas on the CRUD engine *)

Section Crud.

Lemma findIndex_Some {A} (p : A -> bool) (l : list A) (i : nat) :
  findIndex p l = Some i ->
  (exists x, l !! i = Some x /\ p x = true)
  /\ (forall j y, j < i -> l !! j = Some y -> p y = false).
Proof.
  revert i. induction l as [|x l IH]; intros i; simpl; [discriminate|].
  destruct (p x) eqn:Hp.
  - intros [= <-]. split; [exists x; auto | intros j y Hj; lia].
  - destruct (findIndex p l) as [k|] eqn:Hk; simpl; [|discriminate].
    intros [= <-]. destruct (IH k eq_refl) as [[y [Hy Hpy]] Hlt].
    split; [exists y; auto|].
    intros [|j] z Hj; simpl.
    + intros [= <-]. exact Hp.
    + apply Hlt. lia.
Qed.

Lemma findIndex_None {A} (p : A -> bool) (l : list A) :
  findIndex p l = None <-> (forall x, x ∈ l -> p x = false).
Proof.
  induction l as [|x l IH]; simpl.
  - split; [intros _ y Hy; inversion Hy | reflexivity].
  - destruct (p x) eqn:Hp.
    + split; [discriminate|]. intros H.
      specialize (H x (list_elem_of_here _ _)). congruence.
    + split.
      * intros H y Hy. apply elem_of_cons in Hy as [->|Hy]; [exact Hp|].
        apply (proj1 IH); [|exact Hy].
        destruct (findIndex p l); [discriminate | reflexivity].
      * intros H. rewrite (proj2 IH); [reflexivity|].
        intros y Hy. apply H. by right.
Qed.

Lemma id_is_item_id (id : string) (a : Item) :
  id_is id a = true <-> item_id a = Some (JStr id).
Proof.
  unfold id_is. destruct (item_id a) as [[| | |s| |]|]; try (split; discriminate).
  split.
  - intros H. apply String.eqb_eq in H. by subst.
  - intros [= ->]. apply String.eqb_refl.
Qed.

Lemma remove_id_is (xs : list Item) (id : string) (a : Item) :
  a ∈ remove xs id <-> a ∈ xs /\ id_is id a = false.
Proof.
  unfold remove. rewrite !list_elem_of_In, filter_In.
  by rewrite negb_true_iff.
Qed.

Lemma id_is_false (id : string) (a : Item) :
  id_is id a = false <-> item_id a <> Some (JStr id).
Proof.
  rewrite <- id_is_item_id. destruct (id_is id a); split; congruence.
Qed.

Lemma upsert_found (xs : list Item) (id : string) (r : Item) (i : nat) :
  findIndex (id_is id) xs = Some i -> upsert xs id r = <[i := r]> xs.
Proof. unfold upsert. by intros ->. Qed.

Lemma upsert_fresh (xs : list Item) (id : string) (r : Item) :
  findIndex (id_is id) xs = None -> upsert xs id r = r :: xs.
Proof. unfold upsert. by intros ->. Qed.

Lemma remove_absent (xs : list Item) (id : string) :
  (forall a, a ∈ xs -> item_id a <> Some (JStr id)) -> remove xs id = xs.
Proof.
  intros Hnone. unfold remove. induction xs as [|a xs IH]; simpl; [reflexivity|].
  assert (Ha : id_is id a = false) by (apply id_is_false, Hnone; left).
  rewrite Ha. simpl. f_equal. apply IH. intros b Hb. apply Hnone. by right.
Qed.

(** The delete scenario: removing "evt-5" leaves "evt-9", and removing
    it again changes nothing. *)
Example remove_scenario :
  remove [[("id", JStr "evt-5")]; [("id", JStr "evt-9")]] "evt-5" = [[("id", JStr "evt-9")]]
  /\ remove [[("id", JStr "evt-9")]] "evt-5" = [[("id", JStr "evt-9")]].
Proof. split; reflexivity. Qed.

End Crud.

(** ** The collection CRUD engine *)

(** C2. upsert replaces in place the first record that has the id of [r]
    ([r] sits at that index, the length is unchanged, every other index
    keeps its element), and prepends [r] when no record has its id. *)
Theorem upsert_replaces_or_prepends (xs : list Item) (id : string) (r : Item) :
  item_id r = Some (JStr id) ->
  ((exists a, a ∈ xs /\ item_id a = item_id r) ->
   exists i a,
     xs !! i = Some a /\ item_id a = item_id r
     /\ (forall j b, j < i -> xs !! j = Some b -> item_id b <> item_id r)
     /\ upsert xs id r = (take i xs ++ r :: drop (S i) xs)%list
     /\ upsert xs id r !! i = Some r
     /\ length (upsert xs id r) = length xs
     /\ (forall j, j <> i -> upsert xs id r !! j = xs !! j))
  /\ ((forall a, a ∈ xs -> item_id a <> item_id r) ->
      upsert xs id r = r :: xs
      /\ head (upsert xs id r) = Some r
      /\ length (upsert xs id r) = S (length xs)).
Proof.
  intros Hr. rewrite Hr. split.
  - intros [a [Ha Hid]].
    destruct (findIndex (id_is id) xs) as [i|] eqn:Hfind.
    + destruct (findIndex_Some _ _ _ Hfind) as [[b [Hb Hpb]] Hbefore].
      assert (Hlt : i < length xs) by (apply lookup_lt_is_Some; eauto).
      exists i, b. rewrite (upsert_found _ _ _ _ Hfind).
      split; [exact Hb|]. split; [by apply id_is_item_id|].
      split; [intros j c Hj Hc; apply id_is_false; eauto|].
      split; [by apply insert_take_drop|].
      split; [by apply list_lookup_insert_eq|].
      split; [apply length_insert|].
      intros j Hj. by apply list_lookup_insert_ne.
    + exfalso. apply (proj1 (findIndex_None _ _)) with (x := a) in Hfind; [|exact Ha].
      apply id_is_false in Hfind. contradiction.
  - intros Hnone.
    assert (Hfind : findIndex (id_is id) xs = None).
    { apply findIndex_None. intros a Ha. apply id_is_false. by apply Hnone. }
    rewrite (upsert_fresh _ _ _ Hfind). auto.
Qed.

(** C8. remove filters out the records whose id is [i], is the identity
    when there is none, and is idempotent. *)
Theorem remove_idempotent (xs : list Item) (i : string) :
  remove (remove xs i) i = remove xs i
  /\ (forall a, a ∈ remove xs i <-> a ∈ xs /\ item_id a <> Some (JStr i))
  /\ ((forall a, a ∈ xs -> item_id a <> Some (JStr i)) -> remove xs i = xs)
  /\ remove xs i `sublist_of` xs.
Proof.
  split; [|split; [|split]].
  - unfold remove. induction xs as [|a xs IH]; simpl; [reflexivity|].
    destruct (negb (id_is i a)) eqn:Ha; simpl; [|exact IH].
    rewrite Ha. by rewrite IH.
  - intros a. rewrite remove_id_is. by rewrite id_is_false.
  - apply remove_absent.
  - unfold remove. induction xs as [|a xs IH]; simpl; [constructor|].
    destruct (negb (id_is i a)); by constructor.
Qed.

(** C9. When the ids of a sequence are pairwise distinct, so are the ids
    after upsert of a record carrying the id it is saved under. *)
Theorem upsert_keeps_ids_distinct (xs : list Item) (id : string) (r : Item) :
  item_id r = Some (JStr id) ->
  NoDup (item_id <$> xs) ->
  NoDup (item_id <$> upsert xs id r).
Proof.
  intros Hr Hnd. destruct (findIndex (id_is id) xs) as [i|] eqn:Hfind.
  - rewrite (upsert_found _ _ _ _ Hfind).
    destruct (findIndex_Some _ _ _ Hfind) as [[b [Hb Hpb]] _].
    apply id_is_item_id in Hpb.
    rewrite list_fmap_insert, list_insert_id; [exact Hnd|].
    rewrite list_lookup_fmap, Hb. simpl. congruence.
  - rewrite (upsert_fresh _ _ _ Hfind). rewrite fmap_cons.
    apply NoDup_cons_2; [|exact Hnd].
    intros Hin. apply list_elem_of_fmap in Hin as [a [Ha Hin]].
    apply (proj1 (findIndex_None _ _)) with (x := a) in Hfind; [|exact Hin].
    apply id_is_false in Hfind. congruence.
Qed.

(** ** The store client, outcome by outcome *)

Section Client.

Variable net : list Request -> Request -> FetchOutcome.

Lemma fetch_eq (r : Request) (w : World) :
  fetch net r w =
  (match net (requests w) r with
   | Rejected reason => Throw (JsError reason)
   | Responded response => Ok response
   end, with_requests (requests w ++ [r]) w).
Proof. unfold fetch. by destruct (net (requests w) r). Qed.

Lemma fetchContent_eq (path : string) (w : World) :
  fetchContent net path w =
  (Ok (fetched_of (net (requests w) (read_request (github w) path))),
   with_requests (requests w ++ [read_request (github w) path]) w).
Proof.
  unfold fetchContent, bind, gets, try_catch. simpl. rewrite fetch_eq.
  destruct (net (requests w) (read_request (github w) path)) as [m|r]; simpl; [done|].
  destruct (ok r) eqn:Hok; simpl.
  - unfold response_json. destruct (payload r) as [|m|[j|] s|fs|s]; done.
  - destruct (status r =? 404)%nat; done.
Qed.

Lemma saveContent_eq (path : string) (c : DocRef) (sha : option string) (w : World) :
  saveContent net path c sha w =
  (saved_of (net (requests w) (write_request (github w) path (doc_json w c) sha)),
   with_requests (requests w ++ [write_request (github w) path (doc_json w c) sha]) w).
Proof.
  unfold saveContent, bind, gets. simpl.
  assert (Hs : stringify c w = (Ok (doc_json w c), w)) by (by destruct c).
  rewrite Hs, fetch_eq.
  destruct (net (requests w) (write_request (github w) path (doc_json w c) sha))
    as [m|r]; simpl; [done|].
  unfold response_json, rejection_message.
  destruct (ok r); simpl; destruct (payload r); done.
Qed.

Lemma loadImages_eq (w : World) :
  loadImages net w =
  (Ok tt,
   with_images (images_of (net (requests w) (list_request (github w))) (images w))
               (with_requests (requests w ++ [list_request (github w)]) w)).
Proof.
  unfold loadImages, bind, gets, try_catch. simpl. rewrite fetch_eq.
  destruct (net (requests w) (list_request (github w))) as [m|r]; simpl; [done|].
  destruct (ok r); simpl; [|done].
  unfold response_json. destruct (payload r); done.
Qed.

End Client.

(** ** Load-all *)

Lemma bind_Ok {A B} (m : M A) (k : A -> M B) (w w1 : World) (a : A) :
  m w = (Ok a, w1) -> bind m k w = k a w1.
Proof. unfold bind. by intros ->. Qed.

Lemma bind_Throw {A B} (m : M A) (k : A -> M B) (w w1 : World) (e : exn) :
  m w = (Throw e, w1) -> bind m k w = (Throw e, w1).
Proof. unfold bind. by intros ->. Qed.

Lemma try_Ok {A} (m : M A) (h : exn -> M A) (w w1 : World) (a : A) :
  m w = (Ok a, w1) -> try_catch m h w = (Ok a, w1).
Proof. unfold try_catch. by intros ->. Qed.

Lemma try_Throw {A} (m : M A) (h : exn -> M A) (w w1 : World) (e : exn) :
  m w = (Throw e, w1) -> try_catch m h w = h e w1.
Proof. unfold try_catch. by intros ->. Qed.

Lemma with_arrays_same (w : World) : with_arrays (arrays w) w = w.
Proof. by destruct w. Qed.

Lemma with_objects_same (w : World) : with_objects (objects w) w = w.
Proof. by destruct w. Qed.

Lemma lookup_alloc {A} (l : list A) (x : A) (rest : list A) :
  ((l ++ [x]) ++ rest)%list !! length l = Some x.
Proof. rewrite <- app_assoc. by apply list_lookup_middle. Qed.

Section LoadAll.

Variable net : list Request -> Request -> FetchOutcome.

Lemma intern_collection_eq (k : Kind) (f : option Fetched) (w : World) :
  intern_collection k f w =
  (Ok (coll_doc k f (length (arrays w))),
   with_arrays (arrays w ++ coll_new k f) w).
Proof.
  unfold intern_collection, coll_doc, coll_new.
  destruct f as [f|]; [destruct (array_of (Some (fdata f)) (kind_key k))|].
  - reflexivity.
  - rewrite app_nil_r, with_arrays_same. reflexivity.
  - rewrite app_nil_r, with_arrays_same. reflexivity.
Qed.

Lemma intern_config_eq (f : option Fetched) (w : World) :
  intern_config f w =
  (Ok (conf_doc f (length (objects w))),
   with_objects (objects w ++ conf_new f) w).
Proof.
  unfold intern_config, conf_doc, conf_new.
  destruct f as [f|]; [destruct (fdata f)|];
    try reflexivity; rewrite app_nil_r, with_objects_same; reflexivity.
Qed.

Lemma loadAllContent_run (w : World) :
  let g := github w in
  let h := requests w in
  let q1 := read_request g "content/site-config.json" in
  let q2 := read_request g "content/news.json" in
  let q3 := read_request g "content/projects.json" in
  let q4 := read_request g "content/events.json" in
  let q5 := list_request g in
  let f1 := fetched_of (net h q1) in
  let f2 := fetched_of (net (h ++ [q1]) q2) in
  let f3 := fetched_of (net ((h ++ [q1]) ++ [q2]) q3) in
  let f4 := fetched_of (net (((h ++ [q1]) ++ [q2]) ++ [q3]) q4) in
  let a1 := (arrays w ++ coll_new News f2)%list in
  let a2 := (a1 ++ coll_new Project f3)%list in
  let a3 := (a2 ++ coll_new Event f4)%list in
  loadAllContent net w =
  (Ok tt,
   with_syncStatus "synced"
     (with_images (images_of (net ((((h ++ [q1]) ++ [q2]) ++ [q3]) ++ [q4]) q5) (images w))
        (with_requests (((((h ++ [q1]) ++ [q2]) ++ [q3]) ++ [q4]) ++ [q5])
           (with_content {| siteConfig := conf_doc f1 (length (objects w));
                            news := coll_doc News f2 (length (arrays w));
                            projects := coll_doc Project f3 (length a1);
                            events := coll_doc Event f4 (length a2) |}
              (with_arrays a3 (with_objects (objects w ++ conf_new f1) w)))))).
Proof.
  intros. unfold loadAllContent.
  apply try_Ok.
  erewrite bind_Ok by reflexivity.
  erewrite bind_Ok by apply fetchContent_eq.
  erewrite bind_Ok by apply fetchContent_eq.
  erewrite bind_Ok by apply fetchContent_eq.
  erewrite bind_Ok by apply fetchContent_eq.
  erewrite bind_Ok by apply intern_config_eq.
  erewrite bind_Ok by apply intern_collection_eq.
  erewrite bind_Ok by apply intern_collection_eq.
  erewrite bind_Ok by apply intern_collection_eq.
  erewrite bind_Ok by reflexivity.
  erewrite bind_Ok by apply loadImages_eq.
  reflexivity.
Qed.

Lemma view_coll_doc (k : Kind) (f : option Fetched) (A rest : list (list Item))
      (w : World) :
  arrays w = ((A ++ coll_new k f) ++ rest)%list ->
  collection_view w (coll_doc k f (length A)) = collection_entry k f.
Proof.
  intros Hw. unfold collection_view, coll_doc, coll_new, collection_entry in *.
  destruct f as [f|]; [|reflexivity].
  destruct (array_of (Some (fdata f)) (kind_key k)) as [xs|]; [|reflexivity].
  cbn [items sha]. rewrite Hw, lookup_alloc. reflexivity.
Qed.

Lemma view_conf_doc (f : option Fetched) (O rest : list jsobj) (w : World) :
  objects w = ((O ++ conf_new f) ++ rest)%list ->
  config_view w (conf_doc f (length O)) = config_entry f.
Proof.
  intros Hw. unfold config_view, conf_doc, conf_new, config_entry in *.
  destruct f as [f|]; [|reflexivity].
  destruct (fdata f); try reflexivity.
  cbn [config csha]. rewrite Hw, lookup_alloc. reflexivity.
Qed.

(** The world after Load-all, by the answers to its five requests. *)
Lemma loadAllContent_views (w : World) :
  let g := github w in
  let h := requests w in
  let q1 := read_request g "content/site-config.json" in
  let q2 := read_request g "content/news.json" in
  let q3 := read_request g "content/projects.json" in
  let q4 := read_request g "content/events.json" in
  let q5 := list_request g in
  let w' := exec (loadAllContent net) w in
  result (loadAllContent net) w = Ok tt
  /\ syncStatus w' = "synced"
  /\ toasts w' = toasts w
  /\ requests w' = (h ++ [q1; q2; q3; q4; q5])%list
  /\ config_view w' (siteConfig (content w')) = config_entry (fetched_of (net h q1))
  /\ collection_view w' (news (content w'))
     = collection_entry News (fetched_of (net (h ++ [q1]) q2))
  /\ collection_view w' (projects (content w'))
     = collection_entry Project (fetched_of (net (h ++ [q1; q2]) q3))
  /\ collection_view w' (events (content w'))
     = collection_entry Event (fetched_of (net (h ++ [q1; q2; q3]) q4))
  /\ images w' = images_of (net (h ++ [q1; q2; q3; q4]) q5) (images w)
  /\ github w' = github w
  /\ localStorage w' = localStorage w.
Proof.
  intros g h q1 q2 q3 q4 q5 w'. subst w'. unfold exec, result.
  rewrite loadAllContent_run. fold g h q1 q2 q3 q4 q5.
  replace (h ++ [q1; q2])%list with ((h ++ [q1]) ++ [q2])%list
    by (by rewrite <- app_assoc).
  replace (h ++ [q1; q2; q3])%list with (((h ++ [q1]) ++ [q2]) ++ [q3])%list
    by (by rewrite <- !app_assoc).
  replace (h ++ [q1; q2; q3; q4])%list
    with ((((h ++ [q1]) ++ [q2]) ++ [q3]) ++ [q4])%list
    by (by rewrite <- !app_assoc).
  replace (h ++ [q1; q2; q3; q4; q5])%list
    with (((((h ++ [q1]) ++ [q2]) ++ [q3]) ++ [q4]) ++ [q5])%list
    by (by rewrite <- !app_assoc).
  cbn [fst snd].
  repeat split.
  - apply view_conf_doc with (rest := []). by rewrite app_nil_r.
  - eapply view_coll_doc. cbn [arrays with_syncStatus with_images with_requests
                               with_content with_arrays].
    rewrite <- (app_assoc (arrays w ++ _)). reflexivity.
  - eapply view_coll_doc. reflexivity.
  - eapply view_coll_doc with (rest := []). by rewrite app_nil_r.
Qed.

End LoadAll.

(** ** Saving and deleting records *)

Lemma lookup_alloc_last {A} (l : list A) (x : A) :
  (l ++ [x])%list !! length l = Some x.
Proof. by apply list_lookup_middle. Qed.

Lemma bind_assoc_run {A B C} (m : M A) (f : A -> M B) (g : B -> M C) (w : World) :
  bind (bind m f) g w = bind m (fun a => bind (f a) g) w.
Proof. unfold bind. destruct (m w) as [[a|e] w1]; reflexivity. Qed.

Section Save.

Variable net : list Request -> Request -> FetchOutcome.

Lemma save_step {B} (path : string) (c : DocRef) (sha : option string) (w : World)
      (k : Body -> M B) :
  bind (saveContent net path c sha) k w =
  match saved_of (net (requests w) (write_request (github w) path (doc_json w c) sha)) with
  | Ok b => k b (with_requests
                   (requests w ++ [write_request (github w) path (doc_json w c) sha]) w)
  | Throw e => (Throw e,
                with_requests
                  (requests w ++ [write_request (github w) path (doc_json w c) sha]) w)
  end.
Proof. unfold bind. rewrite saveContent_eq. by destruct (saved_of _). Qed.

Lemma commit_step {B} (b : Body) (w : World) (k : option string -> M B) :
  bind (commit_sha b) k w =
  match commit_sha_of b with
  | Ok s => k s w
  | Throw e => (Throw e, w)
  end.
Proof. unfold bind, commit_sha. by destruct (commit_sha_of b). Qed.

(** saveItem on a loaded collection: the cached array itself is updated,
    then the document is sent. *)
Lemma saveItem_cached (k : Kind) (formId : string) (now : Z) (fields : jsobj)
      (w : World) (l : loc) :
  slot k (content w) ≫= items = Some l ->
  let id := record_id k formId now in
  let article := record_of k formId now fields in
  let edited := <[l := upsert (default [] (arrays w !! l)) id article]> (arrays w) in
  let w1 := with_syncStatus "saving" (with_arrays edited w) in
  let q := write_request (github w) (kind_path k)
                         (doc_json w1 (CollectionData (kind_key k) l))
                         (slot k (content w) ≫= sha) in
  let w2 := with_requests (requests w ++ [q]) w1 in
  saveItem net k formId now fields w =
  match save_result (net (requests w) q) with
  | Ok s =>
      (Ok tt,
       with_syncStatus "synced"
         (with_toasts (toasts w ++ [(kind_label k ++ " saved successfully!", "success")])
            (with_content (with_slot k (Some {| items := Some l; sha := s |}) (content w))
               w2)))
  | Throw e =>
      (Ok tt,
       with_syncStatus "error"
         (with_toasts (toasts w ++ [("Error saving " ++ kind_noun k ++ ": "
                                       ++ exn_message e, "error")]) w2))
  end.
Proof.
  intros Hl rid article edited w1 q w2. unfold saveItem.
  change (if String.eqb formId "" then kind_prefix k ++ string_of_Z now else formId)
    with rid.
  change (("id", JStr rid) :: fields) with article.
  erewrite bind_Ok by reflexivity. cbn beta. rewrite Hl.
  erewrite bind_Ok by reflexivity.
  erewrite bind_Ok by reflexivity.
  erewrite bind_Ok by reflexivity.
  unfold try_catch.
  erewrite bind_Ok by reflexivity.
  erewrite bind_Ok by reflexivity.
  rewrite save_step.
  cbn [github requests with_syncStatus with_arrays content].
  fold edited. fold w1. fold q. unfold save_result.
  destruct (saved_of (net (requests w) q)) as [b|e]; [|reflexivity].
  rewrite ?bind_assoc_run, commit_step.
  destruct (commit_sha_of b); reflexivity.
Qed.

Lemma insert_alloc {A} (l : list A) (x y : A) :
  <[length l := y]> (l ++ [x])%list = (l ++ [y])%list.
Proof.
  rewrite insert_app_r_alt by lia. by rewrite Nat.sub_diag.
Qed.

(** saveItem on a collection that is not loaded or has no array: a new
    array is made for the record. *)
Lemma saveItem_fresh (k : Kind) (formId : string) (now : Z) (fields : jsobj)
      (w : World) :
  slot k (content w) ≫= items = None ->
  let article := record_of k formId now fields in
  let l := length (arrays w) in
  let w1 := with_syncStatus "saving" (with_arrays (arrays w ++ [[article]]) w) in
  let q := write_request (github w) (kind_path k)
                         (JObj [(kind_key k, JArr [JObj article])])
                         (slot k (content w) ≫= sha) in
  let w2 := with_requests (requests w ++ [q]) w1 in
  saveItem net k formId now fields w =
  match save_result (net (requests w) q) with
  | Ok s =>
      (Ok tt,
       with_syncStatus "synced"
         (with_toasts (toasts w ++ [(kind_label k ++ " saved successfully!", "success")])
            (with_content (with_slot k (Some {| items := Some l; sha := s |}) (content w))
               w2)))
  | Throw e =>
      (Ok tt,
       with_syncStatus "error"
         (with_toasts (toasts w ++ [("Error saving " ++ kind_noun k ++ ": "
                                       ++ exn_message e, "error")]) w2))
  end.
Proof.
  intros Hl article l w1 q w2. unfold saveItem.
  set (rid := if String.eqb formId "" then kind_prefix k ++ string_of_Z now else formId).
  change (("id", JStr rid) :: fields) with article.
  erewrite bind_Ok by reflexivity. cbn beta. rewrite Hl.
  erewrite bind_Ok by reflexivity.
  erewrite bind_Ok by reflexivity.
  erewrite bind_Ok by reflexivity.
  unfold try_catch.
  erewrite bind_Ok by reflexivity.
  erewrite bind_Ok by reflexivity.
  rewrite save_step.
  cbn [github requests with_syncStatus with_arrays content arrays doc_json].
  rewrite lookup_alloc_last. cbn [default from_option id].
  rewrite insert_alloc, lookup_alloc_last. cbn [default from_option id].
  change (upsert [] rid article) with [article].
  cbn [map]. fold l q. unfold save_result.
  destruct (saved_of (net (requests w) q)) as [b|e]; [|reflexivity].
  rewrite ?bind_assoc_run, commit_step.
  destruct (commit_sha_of b); reflexivity.
Qed.

(** executeDelete on a loaded collection: the filtered array is a new
    one, the cached array is not touched. *)
Lemma executeDelete_cached (w : World) (type id : string) (k : Kind) (l : loc) :
  deleteContext w = (type, id) ->
  kind_of_type type = Some k ->
  slot k (content w) ≫= items = Some l ->
  let kept := remove (default [] (arrays w !! l)) id in
  let l' := length (arrays w) in
  let w1 := with_arrays (arrays w ++ [kept]) (with_syncStatus "saving" w) in
  let q := write_request (github w) (kind_path k)
                         (JObj [(kind_key k, JArr (map JObj kept))])
                         (slot k (content w) ≫= sha) in
  let w2 := with_requests (requests w ++ [q]) w1 in
  executeDelete net w =
  match save_result (net (requests w) q) with
  | Ok s =>
      (Ok tt,
       with_syncStatus "synced"
         (with_toasts (toasts w ++ [("Item deleted successfully!", "success")])
            (with_content (with_slot k (Some {| items := Some l'; sha := s |}) (content w))
               w2)))
  | Throw e =>
      (Ok tt,
       with_syncStatus "error"
         (with_toasts (toasts w ++ [("Error deleting item: " ++ exn_message e, "error")])
            w2))
  end.
Proof.
  intros Hctx Hk Hl kept l' w1 q w2. unfold executeDelete.
  erewrite bind_Ok by reflexivity. cbn beta. rewrite Hctx. cbn [fst snd]. rewrite Hk.
  unfold try_catch.
  erewrite bind_Ok by reflexivity.
  rewrite ?bind_assoc_run.
  erewrite bind_Ok by reflexivity. cbn beta.
  cbn [content with_syncStatus]. rewrite Hl.
  rewrite ?bind_assoc_run.
  erewrite bind_Ok by reflexivity. cbn beta.
  rewrite ?bind_assoc_run.
  erewrite bind_Ok by reflexivity. cbn beta.
  rewrite ?bind_assoc_run.
  erewrite bind_Ok by reflexivity. cbn beta.
  rewrite ?bind_assoc_run.
  rewrite save_step.
  cbn [github requests with_syncStatus with_arrays content arrays doc_json].
  rewrite lookup_alloc_last. cbn [default from_option Datatypes.id].
  fold kept l' q. unfold save_result.
  destruct (saved_of (net (requests w) q)) as [b|e]; [|reflexivity].
  rewrite ?bind_assoc_run, commit_step.
  destruct (commit_sha_of b); reflexivity.
Qed.

End Save.

(** ** Saving the settings *)

Section Settings.

Variable net : list Request -> Request -> FetchOutcome.

(** saveSettings on a loaded settings document: the cached object
    itself is assigned to, then sent. *)
Lemma saveSettings_cached (f : SettingsForm) (w : World) (l : loc) :
  siteConfig (content w) ≫= config = Some l ->
  let edited := <[l := apply_settings f (default [] (objects w !! l))]> (objects w) in
  let w1 := with_syncStatus "saving" (with_objects edited w) in
  let q := write_request (github w) "content/site-config.json"
                         (doc_json w1 (ConfigData l))
                         (siteConfig (content w) ≫= csha) in
  let w2 := with_requests (requests w ++ [q]) w1 in
  saveSettings net f w =
  match save_result (net (requests w) q) with
  | Ok s =>
      (Ok tt,
       with_syncStatus "synced"
         (with_toasts (toasts w ++ [("Settings saved successfully!", "success")])
            (with_content
               (with_siteConfig (Some {| config := Some l; csha := s |}) (content w))
               w2)))
  | Throw e =>
      (Ok tt,
       with_syncStatus "error"
         (with_toasts (toasts w ++ [("Error saving settings: " ++ exn_message e, "error")])
            w2))
  end.
Proof.
  intros Hl edited w1 q w2. unfold saveSettings.
  erewrite bind_Ok by reflexivity. cbn beta. rewrite Hl.
  erewrite bind_Ok by reflexivity.
  erewrite bind_Ok by reflexivity.
  erewrite bind_Ok by reflexivity.
  unfold try_catch.
  erewrite bind_Ok by reflexivity.
  erewrite bind_Ok by reflexivity.
  rewrite save_step.
  cbn [github requests with_syncStatus with_objects content].
  fold edited. fold w1. fold q. unfold save_result.
  destruct (saved_of (net (requests w) q)) as [b|e]; [|reflexivity].
  rewrite ?bind_assoc_run, commit_step.
  destruct (commit_sha_of b); reflexivity.
Qed.


(** executeDelete on a collection that is not loaded: reading the
    array throws, nothing is sent. *)
Lemma executeDelete_unloaded (w : World) (type id : string) (k : Kind) :
  deleteContext w = (type, id) ->
  kind_of_type type = Some k ->
  slot k (content w) ≫= items = None ->
  executeDelete net w =
  (Ok tt,
   with_syncStatus "error"
     (with_toasts (toasts w ++ [("Error deleting item: Cannot read properties of null",
                                 "error")])
        (with_syncStatus "saving" w))).
Proof.
  intros Hctx Hk Hl. unfold executeDelete.
  erewrite bind_Ok by reflexivity. cbn beta. rewrite Hctx. cbn [fst snd]. rewrite Hk.
  unfold try_catch.
  erewrite bind_Ok by reflexivity.
  rewrite ?bind_assoc_run.
  erewrite bind_Ok by reflexivity. cbn beta.
  cbn [content with_syncStatus]. rewrite Hl.
  reflexivity.
Qed.

End Settings.

(** ** Failure of a write *)


Lemma save_result_rejected (r : Response) :
  ok r = false ->
  save_result (Responded r) = Throw (JsError (rejection_message (payload r))).
Proof. unfold save_result, saved_of. by intros ->. Qed.

Lemma save_result_commit (r : Response) (s : option string) :
  ok r = true -> payload r = BodyCommit s -> save_result (Responded r) = Ok s.
Proof. unfold save_result, saved_of. by intros -> ->. Qed.


Lemma config_view_None (w : World) (d : option ConfDoc) :
  config_view w d = None -> d = None.
Proof. by destruct d. Qed.

Section Failure.

Variable net : list Request -> Request -> FetchOutcome.

(** A failed save of a loaded collection leaves the revision of the
    cache entry and changes its body to the edited array. *)
Lemma failed_save_view (k : Kind) (formId : string) (now : Z) (fields : jsobj)
      (w : World) (d : CollDoc) (l : loc) (r : Response) :
  (forall h q, method q = PUT -> net h q = Responded r) ->
  ok r = false ->
  slot k (content w) = Some d -> items d = Some l -> l < length (arrays w) ->
  let w' := exec (saveItem net k formId now fields) w in
  collection_view w' (slot k (content w'))
  = Some (Some (upsert (default [] (arrays w !! l)) (record_id k formId now)
                       (record_of k formId now fields)),
          sha d).
Proof.
  intros Hnet Hok Hd Hl Hlt w'. subst w'. unfold exec.
  rewrite (saveItem_cached net k formId now fields w l) by (by rewrite Hd).
  cbn zeta. rewrite Hnet by reflexivity. rewrite save_result_rejected by done.
  cbn [snd content with_syncStatus with_toasts with_requests with_arrays].
  rewrite Hd. unfold collection_view. rewrite Hl.
  cbn [arrays with_syncStatus with_toasts with_requests with_arrays].
  by rewrite list_lookup_insert_eq.
Qed.

Lemma lookup_alloc_old {A} (xs : list A) (x : A) (l : nat) :
  l < length xs -> (xs ++ [x])%list !! l = xs !! l.
Proof. intros. by apply lookup_app_l. Qed.

Lemma collection_view_arrays (w1 w2 : World) (d : option CollDoc) :
  (forall d' l, d = Some d' -> items d' = Some l -> arrays w1 !! l = arrays w2 !! l) ->
  collection_view w1 d = collection_view w2 d.
Proof.
  intros H. destruct d as [d|]; [|reflexivity]. unfold collection_view.
  destruct (items d) as [l|] eqn:Hl; [|reflexivity].
  by rewrite (H d l).
Qed.

Lemma config_view_objects (w1 w2 : World) (d : option ConfDoc) :
  objects w1 = objects w2 -> config_view w1 d = config_view w2 d.
Proof. intros H. unfold config_view. by rewrite H. Qed.

(** A failed delete leaves the whole cache as it was. *)
Lemma failed_delete_keeps_cache (w : World) (type id : string) (k : Kind) (r : Response) :
  (forall h q, method q = PUT -> net h q = Responded r) ->
  ok r = false ->
  cache_in_store w ->
  deleteContext w = (type, id) ->
  kind_of_type type = Some k ->
  cache_view (exec (executeDelete net) w) = cache_view w.
Proof.
  intros Hnet Hok [Harr Hobj] Hctx Hk. unfold exec.
  destruct (slot k (content w) ≫= items) as [l|] eqn:Hl.
  - rewrite (executeDelete_cached net w type id k l) by done.
    cbn zeta. rewrite Hnet by reflexivity. rewrite save_result_rejected by done.
    cbn [snd]. set (W := with_syncStatus "error" _).
    unfold cache_view. change (content W) with (content w).
    rewrite (config_view_objects W w) by reflexivity.
    rewrite (collection_view_arrays W w (news (content w))),
            (collection_view_arrays W w (projects (content w))),
            (collection_view_arrays W w (events (content w))); [reflexivity|..].
    all: intros d l0 Hd Hl0; subst W;
      cbn [arrays with_syncStatus with_toasts with_requests with_arrays];
      apply lookup_alloc_old.
    + by apply (Harr Event d l0).
    + by apply (Harr Project d l0).
    + by apply (Harr News d l0).
  - rewrite (executeDelete_unloaded net w type id k) by done. reflexivity.
Qed.

(** Deleting an id that no record has is not an error: the document is
    written back with the same records. *)
Lemma executeDelete_absent_record (w : World) (type id : string) (k : Kind) (l : loc)
      (r : Response) (s : option string) :
  deleteContext w = (type, id) ->
  kind_of_type type = Some k ->
  slot k (content w) ≫= items = Some l ->
  (forall a, a ∈ default [] (arrays w !! l) -> item_id a <> Some (JStr id)) ->
  (forall h q, method q = PUT -> net h q = Responded r) ->
  ok r = true -> payload r = BodyCommit s ->
  let w' := exec (executeDelete net) w in
  syncStatus w' = "synced"
  /\ toasts w' = (toasts w ++ [("Item deleted successfully!", "success")])%list
  /\ collection_view w' (slot k (content w')) = Some (Some (default [] (arrays w !! l)), s).
Proof.
  intros Hctx Hk Hl Habsent Hnet Hok Hbody w'. subst w'. unfold exec.
  rewrite (executeDelete_cached net w type id k l) by done.
  cbn zeta. rewrite Hnet by reflexivity. rewrite (save_result_commit r s Hok Hbody).
  cbn [snd syncStatus toasts content with_syncStatus with_toasts with_content
       with_requests].
  split; [reflexivity|]. split; [reflexivity|].
  assert (Hs : forall c : Content, slot k (with_slot k
                 (Some {| items := Some (length (arrays w)); sha := s |}) c)
               = Some {| items := Some (length (arrays w)); sha := s |})
    by (by destruct k).
  rewrite Hs.
  cbn [collection_view items sha arrays with_syncStatus with_toasts with_content
       with_requests with_arrays].
  rewrite lookup_alloc_last. cbn [default from_option Datatypes.id].
  by rewrite (remove_absent _ id Habsent).
Qed.

End Failure.

(** C1. At a failed write the cache entry of a saved record or of the
    settings is not what it was: in the session [loaded] (news.json read
    at revision "abc" with one article) saving a new article against a
    store that answers 409 leaves the revision "abc" in the cache and the
    unsaved article in the cached body; likewise for the settings. *)
Theorem failed_save_changes_cached_body :
  let w := Examples.loaded in
  let w' := exec (saveNews Examples.stale_store Examples.cleanup_form 1700000000000) w in
  let c := Examples.configured in
  let c' := exec (saveSettings Examples.stale_store Examples.settings_form) c in
  collection_view w (news (content w)) = Some (Some [Examples.old_article], Some "abc")
  /\ collection_view w' (news (content w'))
     = Some (Some [Examples.cleanup_article; Examples.old_article], Some "abc")
  /\ syncStatus w' = "error"
  /\ toasts w' = [("Error saving article: content/news.json does not match abc", "error")]
  /\ config_view c (siteConfig (content c))
     = Some (Some [("siteName", JStr "Old name")], Some "c1")
  /\ config_view c' (siteConfig (content c'))
     = Some (Some (apply_settings Examples.settings_form [("siteName", JStr "Old name")]),
             Some "c1")
  /\ syncStatus c' = "error".
Proof. vm_compute. repeat split. Qed.

(** ** Rejected writes *)



(** ** Load-all and missing documents *)



Section Missing.

Variable net : list Request -> Request -> FetchOutcome.




End Missing.


(** ** Credentials *)

Section Gate.

Variable net : list Request -> Request -> FetchOutcome.

(** deleteImage, outcome by outcome. *)
Lemma deleteImage_eq (path sha : string) (w : World) :
  let q := delete_request (github w) path sha in
  let w1 := with_requests (requests w ++ [q]) (with_syncStatus "saving" w) in
  let failed msg :=
    (Ok tt, with_syncStatus "error"
              (with_toasts (toasts w ++ [("Error deleting image: " ++ msg, "error")]) w1)) in
  deleteImage net path sha true w =
  match net (requests w) q with
  | Rejected reason => failed reason
  | Responded r =>
      if ok r then
        (Ok tt,
         with_syncStatus "synced"
           (with_toasts (toasts w ++ [("Image deleted!", "success")])
              (snd (loadImages net w1))))
      else failed "Failed to delete image"
  end.
Proof.
  intros q w1 failed. unfold deleteImage. cbn [negb]. unfold try_catch.
  erewrite bind_Ok by reflexivity.
  erewrite bind_Ok by reflexivity.
  unfold bind at 1. rewrite fetch_eq.
  cbn [github requests with_syncStatus]. fold q. fold w1.
  destruct (net (requests w) q) as [reason|r]; [reflexivity|].
  destruct (ok r); [|reflexivity]. cbn [negb].
  erewrite bind_Ok by apply loadImages_eq.
  rewrite loadImages_eq. reflexivity.
Qed.

End Gate.

(** C6, as the code has it. Each of the four store operations sends its
    request first, built from whatever credentials the session holds;
    when the store refuses, a read returns null, a write throws the
    store's message, a listing leaves the image list as it was and a
    delete reports 'Failed to delete image'. *)
Theorem store_operations_send_unchecked
        (net : list Request -> Request -> FetchOutcome) (w : World)
        (path : string) (c : DocRef) (sha : option string) (image image_sha : string) :
  let g := github w in
  (requests (exec (fetchContent net path) w) = (requests w ++ [read_request g path])%list
   /\ requests (exec (saveContent net path c sha) w)
      = (requests w ++ [write_request g path (doc_json w c) sha])%list
   /\ requests (exec (loadImages net) w) = (requests w ++ [list_request g])%list
   /\ exists rest,
        requests (exec (deleteImage net image image_sha true) w)
        = (requests w ++ delete_request g image image_sha :: rest)%list)
  /\ (forall r,
        (forall h q, net h q = Responded r) ->
        ok r = false ->
        result (fetchContent net path) w = Ok None
        /\ result (saveContent net path c sha) w
           = Throw (JsError (rejection_message (payload r)))
        /\ images (exec (loadImages net) w) = images w
        /\ requests (exec (deleteImage net image image_sha true) w)
           = (requests w ++ [delete_request g image image_sha])%list
        /\ toasts (exec (deleteImage net image image_sha true) w)
           = (toasts w ++ [("Error deleting image: Failed to delete image", "error")])%list).
Proof.
  intros g. unfold exec, result.
  rewrite fetchContent_eq, saveContent_eq, loadImages_eq, deleteImage_eq.
  cbn zeta. split.
  - repeat split.
    destruct (net (requests w) (delete_request (github w) image image_sha)) as [m|r].
    + by exists [].
    + destruct (ok r); [|by exists []].
      rewrite loadImages_eq. eexists.
      cbn [snd requests github with_syncStatus with_toasts with_images with_requests].
      rewrite <- app_assoc. reflexivity.
  - intros r Hnet Hok. rewrite !Hnet. rewrite Hok.
    unfold fetched_of, saved_of, images_of. rewrite Hok.
    repeat split.
Qed.

(** C6, as stated, fails: with the credentials of a logged-out session
    the four operations each send their request, and none of them ends
    with an error about credentials of its own. *)
Lemma requests_sent_without_credentials :
  let w := initial_world None in
  github w = no_credentials
  /\ requests (exec (fetchContent Examples.deny "content/news.json") w)
     = [read_request no_credentials "content/news.json"]
  /\ result (fetchContent Examples.deny "content/news.json") w = Ok None
  /\ requests (exec (saveContent Examples.deny "content/news.json"
                                 (CollectionData "articles" 0) None) w)
     = [write_request no_credentials "content/news.json" (JObj [("articles", JArr [])]) None]
  /\ requests (exec (loadImages Examples.deny) w) = [list_request no_credentials]
  /\ requests (exec (deleteImage Examples.deny "images/a.png" "abc" true) w)
     = [delete_request no_credentials "images/a.png" "abc"].
Proof. vm_compute. repeat split. Qed.

(** ** Logout *)

Section Logout.

Variable net : list Request -> Request -> FetchOutcome.

Lemma handleLogin_accepted (form : Credentials) (w : World) (r : Response) :
  net (requests w) (probe_request form) = Responded r ->
  ok r = true ->
  handleLogin net form w
  = loadAllContent net
      (with_dashboard true
         (with_localStorage (Some form)
            (with_github form
               (with_requests (requests w ++ [probe_request form])
                  (with_loginError "" w))))).
Proof.
  intros Hnet Hok. unfold handleLogin.
  erewrite bind_Ok by reflexivity. unfold try_catch.
  unfold bind at 1. rewrite fetch_eq. cbn [requests with_loginError].
  rewrite Hnet, Hok. cbn [negb].
  erewrite bind_Ok by reflexivity.
  erewrite bind_Ok by reflexivity.
  unfold showDashboard.
  erewrite bind_Ok by reflexivity.
  destruct (loadAllContent_views net
              (with_dashboard true
                 (with_localStorage (Some form)
                    (with_github form
                       (with_requests (requests w ++ [probe_request form])
                          (with_loginError "" w)))))) as [Hres _].
  unfold result in Hres.
  destruct (loadAllContent net _) as [res w']. cbn [fst] in Hres. by subst res.
Qed.

End Logout.



(** ** The public content loader *)

Section Display.

Import Site.

Variable site_net : list string -> string -> option json.
Variable Date_parse : string -> option Z.


Lemma filter_sublist {A} (p : A -> bool) (l : list A) : List.filter p l `sublist_of` l.
Proof.
  induction l as [|a l IH]; simpl; [constructor|].
  destruct (p a); by constructor.
Qed.


Lemma slice0_sublist {A} (n : Z) (l : list A) : slice0 n l `sublist_of` l.
Proof. unfold slice0. destruct (n <? 0)%Z; apply sublist_take. Qed.


(** *** Insertion sort *)











End Display.



(** ** The theorems at concrete sessions *)

Lemma upsert_replaces_or_prepends_witness :
  item_id Examples.edited_article = Some (JStr "news-1")
  /\ (exists i a,
         [Examples.cleanup_article; Examples.old_article] !! i = Some a
         /\ item_id a = item_id Examples.edited_article
         /\ (forall j b, j < i ->
                         [Examples.cleanup_article; Examples.old_article] !! j = Some b ->
                         item_id b <> item_id Examples.edited_article)
         /\ upsert [Examples.cleanup_article; Examples.old_article] "news-1"
                   Examples.edited_article
            = (take i [Examples.cleanup_article; Examples.old_article]
                 ++ Examples.edited_article
                 :: drop (S i) [Examples.cleanup_article; Examples.old_article])%list
         /\ upsert [Examples.cleanup_article; Examples.old_article] "news-1"
                   Examples.edited_article !! i = Some Examples.edited_article
         /\ length (upsert [Examples.cleanup_article; Examples.old_article] "news-1"
                           Examples.edited_article) = 2
         /\ (forall j, j <> i ->
                       upsert [Examples.cleanup_article; Examples.old_article] "news-1"
                              Examples.edited_article !! j
                       = [Examples.cleanup_article; Examples.old_article] !! j))
  /\ upsert [Examples.old_article] "news-1700000000000" Examples.cleanup_article
     = [Examples.cleanup_article; Examples.old_article].
Proof.
  split; [reflexivity|]. split.
  - apply (upsert_replaces_or_prepends
             [Examples.cleanup_article; Examples.old_article] "news-1"
             Examples.edited_article eq_refl).
    exists Examples.old_article. split; [|reflexivity].
    apply list_elem_of_further, list_elem_of_here.
  - apply (upsert_replaces_or_prepends
             [Examples.old_article] "news-1700000000000"
             Examples.cleanup_article eq_refl).
    intros a Ha. apply list_elem_of_singleton in Ha. subst a. discriminate.
Defined.

Lemma upsert_keeps_ids_distinct_witness :
  item_id Examples.edited_article = Some (JStr "news-1")
  /\ NoDup (item_id <$> [Examples.cleanup_article; Examples.old_article])
  /\ NoDup (item_id <$> upsert [Examples.cleanup_article; Examples.old_article] "news-1"
                               Examples.edited_article).
Proof.
  assert (Hnd : NoDup (item_id <$> [Examples.cleanup_article; Examples.old_article])).
  { apply NoDup_cons_2; [|apply NoDup_singleton].
    intros H. apply list_elem_of_singleton in H. discriminate. }
  split; [reflexivity|]. split; [exact Hnd|].
  exact (upsert_keeps_ids_distinct _ "news-1" Examples.edited_article eq_refl Hnd).
Defined.



Lemma store_operations_send_unchecked_witness :
  let w := initial_world None in
  result (fetchContent Examples.deny "content/news.json") w = Ok None
  /\ result (saveContent Examples.deny "content/news.json"
                         (CollectionData "articles" 0) None) w
     = Throw (JsError "Bad credentials")
  /\ images (exec (loadImages Examples.deny) w) = []
  /\ requests (exec (deleteImage Examples.deny "images/a.png" "abc" true) w)
     = [delete_request no_credentials "images/a.png" "abc"]
  /\ toasts (exec (deleteImage Examples.deny "images/a.png" "abc" true) w)
     = [("Error deleting image: Failed to delete image", "error")].
Proof.
  intros w.
  destruct (store_operations_send_unchecked Examples.deny w "content/news.json"
              (CollectionData "articles" 0) None "images/a.png" "abc") as [_ H].
  exact (H Examples.unauthorized (fun _ _ => eq_refl) eq_refl).
Defined.



(** ** Further properties of the collection engine *)

Section Lookup.

Lemma findIndex_insert_first {A} (p : A -> bool) (xs : list A) (i : nat) (r : A) :
  findIndex p xs = Some i -> p r = true -> findIndex p (<[i := r]> xs) = Some i.
Proof.
  revert i. induction xs as [|x xs IH]; intros i; simpl; [discriminate|].
  destruct (p x) eqn:Hx.
  - intros [= <-] Hr. simpl. by rewrite Hr.
  - destruct (findIndex p xs) as [j|] eqn:Hj; simpl; [|discriminate].
    intros [= <-] Hr. simpl. rewrite Hx. by rewrite (IH j eq_refl Hr).
Qed.

Lemma find_findIndex {A} (p : A -> bool) (xs : list A) :
  List.find p xs = findIndex p xs ≫= fun i => xs !! i.
Proof.
  induction xs as [|x xs IH]; simpl; [reflexivity|].
  destruct (p x); [reflexivity|]. rewrite IH.
  by destruct (findIndex p xs).
Qed.

Lemma find_insert_other {A} (p : A -> bool) (xs : list A) (i : nat) (a r : A) :
  xs !! i = Some a -> p a = false -> p r = false ->
  List.find p (<[i := r]> xs) = List.find p xs.
Proof.
  revert i. induction xs as [|x xs IH]; intros [|i]; simpl; try discriminate.
  - intros [= ->] Ha Hr. by rewrite Ha, Hr.
  - intros Hi Ha Hr. destruct (p x); [reflexivity|]. by apply IH.
Qed.

Lemma id_is_other (id id' : string) (a : Item) :
  id' <> id -> id_is id a = true -> id_is id' a = false.
Proof.
  intros Hne Ha. apply id_is_item_id in Ha. apply id_is_false. congruence.
Qed.

Lemma filter_insert_dropped {A} (p : A -> bool) (xs : list A) (i : nat) (a r : A) :
  xs !! i = Some a -> p a = false -> p r = false ->
  List.filter p (<[i := r]> xs) = List.filter p xs.
Proof.
  revert i. induction xs as [|x xs IH]; intros [|i]; simpl; try discriminate.
  - intros [= ->] Ha Hr. by rewrite Ha, Hr.
  - intros Hi Ha Hr. rewrite (IH i Hi Ha Hr). reflexivity.
Qed.

Lemma findById_lookup_upsert (xs : list Item) (id : string) (r : Item) :
  item_id r = Some (JStr id) ->
  findById (upsert xs id r) id = Some r
  /\ (forall id', id' <> id -> findById (upsert xs id r) id' = findById xs id').
Proof.
  intros Hr. assert (Hp : id_is id r = true) by (by apply id_is_item_id).
  unfold findById. split.
  - rewrite find_findIndex. destruct (findIndex (id_is id) xs) as [i|] eqn:Hfind.
    + rewrite (upsert_found _ _ _ _ Hfind), (findIndex_insert_first _ _ _ _ Hfind Hp).
      destruct (findIndex_Some _ _ _ Hfind) as [[a [Ha _]] _].
      simpl. apply list_lookup_insert_eq. apply lookup_lt_is_Some. eauto.
    + rewrite (upsert_fresh _ _ _ Hfind). simpl. by rewrite Hp.
  - intros id' Hne. pose proof (id_is_other id id' r Hne Hp) as Hr'.
    destruct (findIndex (id_is id) xs) as [i|] eqn:Hfind.
    + rewrite (upsert_found _ _ _ _ Hfind).
      destruct (findIndex_Some _ _ _ Hfind) as [[a [Ha Hpa]] _].
      apply (find_insert_other _ _ _ a); [exact Ha | | exact Hr'].
      by apply (id_is_other id id').
    + rewrite (upsert_fresh _ _ _ Hfind). simpl. by rewrite Hr'.
Qed.

Lemma upsert_again (xs : list Item) (id : string) (r r' : Item) :
  item_id r = Some (JStr id) ->
  upsert (upsert xs id r) id r' = upsert xs id r'.
Proof.
  intros Hr. assert (Hp : id_is id r = true) by (by apply id_is_item_id).
  destruct (findIndex (id_is id) xs) as [i|] eqn:Hfind.
  - rewrite (upsert_found xs id r i Hfind), (upsert_found xs id r' i Hfind).
    rewrite (upsert_found _ id r' i (findIndex_insert_first _ _ _ _ Hfind Hp)).
    apply list_insert_insert_eq.
  - rewrite (upsert_fresh xs id r Hfind), (upsert_fresh xs id r' Hfind).
    unfold upsert. simpl. by rewrite Hp.
Qed.


End Lookup.

(** X1. Looking a record up by its id after it was saved finds that
    record, and the lookup of every other id is what it was. *)
Theorem findById_upsert (xs : list Item) (id : string) (r : Item) :
  item_id r = Some (JStr id) ->
  findById (upsert xs id r) id = Some r
  /\ (forall id', id' <> id -> findById (upsert xs id r) id' = findById xs id').
Proof. apply findById_lookup_upsert. Qed.

(** X2. After a record was removed the lookup of its id finds nothing,
    and the lookup of every other id is what it was. *)
Theorem findById_remove (xs : list Item) (id : string) :
  findById (remove xs id) id = None
  /\ (forall id', id' <> id -> findById (remove xs id) id' = findById xs id').
Proof.
  unfold findById, remove. split.
  - induction xs as [|a xs IH]; simpl; [reflexivity|].
    destruct (id_is id a) eqn:Ha; simpl; [exact IH|]. by rewrite Ha.
  - intros id' Hne. induction xs as [|a xs IH]; simpl; [reflexivity|].
    destruct (id_is id a) eqn:Ha; simpl.
    + by rewrite (id_is_other id id' a Hne Ha).
    + destruct (id_is id' a); [reflexivity | exact IH].
Qed.

(** X3. Saving under the same id twice is the same as the second save
    alone: the record keeps its place and no copy is added. *)
Theorem upsert_twice (xs : list Item) (id : string) (r r' : Item) :
  item_id r = Some (JStr id) ->
  upsert (upsert xs id r) id r' = upsert xs id r'.
Proof. apply upsert_again. Qed.

(** X4. Removing an id after a save under it gives what removing it
    before the save gives; when no record had the id, creating a record
    and deleting it restores the collection. *)
Theorem remove_upsert (xs : list Item) (id : string) (r : Item) :
  item_id r = Some (JStr id) ->
  remove (upsert xs id r) id = remove xs id
  /\ ((forall a, a ∈ xs -> item_id a <> Some (JStr id)) ->
      remove (upsert xs id r) id = xs).
Proof.
  intros Hr. assert (Hp : id_is id r = true) by (by apply id_is_item_id).
  assert (Heq : remove (upsert xs id r) id = remove xs id).
  { destruct (findIndex (id_is id) xs) as [i|] eqn:Hfind.
    - rewrite (upsert_found _ _ _ _ Hfind).
      destruct (findIndex_Some _ _ _ Hfind) as [[a [Ha Hpa]] _].
      unfold remove. apply (filter_insert_dropped _ _ _ a); [exact Ha | |].
      + by rewrite Hpa.
      + by rewrite Hp.
    - rewrite (upsert_fresh _ _ _ Hfind). unfold remove. simpl. by rewrite Hp. }
  split; [exact Heq|]. intros Habsent. rewrite Heq. by apply remove_absent.
Qed.

(** ** Saves and deletes, whatever the store answers *)

Section Outcome.

Variable net : list Request -> Request -> FetchOutcome.

Lemma slot_with_slot_eq (k : Kind) (d : option CollDoc) (c : Content) :
  slot k (with_slot k d c) = d.
Proof. by destruct k. Qed.

Lemma slot_with_slot_ne (k k' : Kind) (d : option CollDoc) (c : Content) :
  k' <> k -> slot k' (with_slot k d c) = slot k' c.
Proof. by destruct k, k'. Qed.

Lemma siteConfig_with_slot (k : Kind) (d : option CollDoc) (c : Content) :
  siteConfig (with_slot k d c) = siteConfig c.
Proof. by destruct k. Qed.

Lemma grid_cached (k : Kind) (w : World) (l : loc) :
  slot k (content w) ≫= items = Some l -> grid k w = default [] (arrays w !! l).
Proof. unfold grid. by intros ->. Qed.

Lemma grid_fresh (k : Kind) (w : World) :
  slot k (content w) ≫= items = None -> grid k w = [].
Proof. unfold grid. by intros ->. Qed.

Lemma cached_in_range (k : Kind) (w : World) (l : loc) :
  cache_in_store w -> slot k (content w) ≫= items = Some l -> l < length (arrays w).
Proof.
  intros [Harr _] Hl. destruct (slot k (content w)) as [d|] eqn:Hd; [|discriminate].
  by apply (Harr k d l).
Qed.

(** What saveItem sends, and the world it leaves, in every case. *)
Lemma saveItem_outcome (k : Kind) (formId : string) (now : Z) (fields : jsobj)
      (w : World) :
  cache_in_store w ->
  let id := record_id k formId now in
  let article := record_of k formId now fields in
  let doc := upsert (grid k w) id article in
  let q := write_request (github w) (kind_path k)
                         (JObj [(kind_key k, JArr (map JObj doc))])
                         (slot k (content w) ≫= sha) in
  let w' := exec (saveItem net k formId now fields) w in
  requests w' = (requests w ++ [q])%list
  /\ github w' = github w
  /\ cache_in_store w'
  /\ match save_result (net (requests w) q) with
     | Ok s =>
         syncStatus w' = "synced"
         /\ toasts w' = (toasts w ++ [((kind_label k ++ " saved successfully!")%string,
                                       "success")])%list
         /\ grid k w' = doc
         /\ slot k (content w') ≫= sha = s
     | Throw e =>
         syncStatus w' = "error"
         /\ toasts w' = (toasts w ++ [(("Error saving " ++ kind_noun k ++ ": "
                                          ++ exn_message e)%string, "error")])%list
         /\ content w' = content w
         /\ grid k w' = match slot k (content w) ≫= items with
                        | Some _ => doc
                        | None => []
                        end
     end.
Proof.
  intros Hwf id article doc q w'. subst w'. unfold exec.
  destruct (slot k (content w) ≫= items) as [l|] eqn:Hl.
  - pose proof (cached_in_range k w l Hwf Hl) as Hlt.
    rewrite (saveItem_cached net k formId now fields w l Hl). cbn zeta.
    unfold doc_json. cbn [arrays with_syncStatus with_arrays].
    rewrite list_lookup_insert_eq by done. cbn [default from_option Datatypes.id].
    rewrite <- (grid_cached k w l Hl). fold id article doc q.
    assert (Hwf' : forall (c : Content) (W : World),
               arrays W = <[l := doc]> (arrays w) -> objects W = objects w ->
               (c = content w \/ exists s, c = with_slot k
                                                  (Some {| items := Some l; sha := s |})
                                                  (content w)) ->
               content W = c -> cache_in_store W).
    { intros c W Ha Ho Hc HW. destruct Hwf as [Harr Hobj]. split.
      - intros k' d l' Hd Hl'. rewrite Ha, length_insert. rewrite HW in Hd.
        destruct Hc as [->|[s ->]]; [by apply (Harr k' d l')|].
        destruct (decide (k' = k)) as [->|Hne].
        + rewrite slot_with_slot_eq in Hd. injection Hd as <-.
          cbn [items] in Hl'. by injection Hl' as <-.
        + rewrite slot_with_slot_ne in Hd by done. by apply (Harr k' d l').
      - intros d l' Hd Hl'. rewrite Ho. rewrite HW in Hd.
        destruct Hc as [->|[s ->]]; [by apply (Hobj d l')|].
        rewrite siteConfig_with_slot in Hd. by apply (Hobj d l'). }
    destruct (save_result (net (requests w) q)) as [s|e]; cbn [snd].
    + split; [reflexivity|]. split; [reflexivity|].
      split; [eapply Hwf'; [reflexivity | reflexivity | right; by eexists | reflexivity]|].
      split; [reflexivity|]. split; [reflexivity|].
      unfold grid.
      cbn [content arrays with_syncStatus with_toasts with_content with_requests
           with_arrays].
      rewrite slot_with_slot_eq. cbn [mbind option_bind items sha].
      rewrite list_lookup_insert_eq by done. by split.
    + split; [reflexivity|]. split; [reflexivity|].
      split; [eapply Hwf'; [reflexivity | reflexivity | by left | reflexivity]|].
      split; [reflexivity|]. split; [reflexivity|]. split; [reflexivity|].
      unfold grid.
      cbn [content arrays with_syncStatus with_toasts with_content with_requests
           with_arrays].
      rewrite Hl. by rewrite list_lookup_insert_eq.
  - rewrite (saveItem_fresh net k formId now fields w Hl). cbn zeta.
    assert (Hdoc : doc = [article]).
    { unfold doc. by rewrite (grid_fresh k w Hl). }
    subst q. rewrite Hdoc. cbn [map]. fold article.
    set (q := write_request _ _ _ _).
    assert (Hwf' : forall (c : Content) (W : World),
               arrays W = (arrays w ++ [[article]])%list -> objects W = objects w ->
               (c = content w \/ exists s, c = with_slot k
                           (Some {| items := Some (length (arrays w)); sha := s |})
                           (content w)) ->
               content W = c -> cache_in_store W).
    { intros c W Ha Ho Hc HW. destruct Hwf as [Harr Hobj]. split.
      - intros k' d l' Hd Hl'. rewrite Ha, length_app. simpl. rewrite HW in Hd.
        destruct Hc as [->|[s ->]]; [pose proof (Harr k' d l' Hd Hl'); lia|].
        destruct (decide (k' = k)) as [->|Hne].
        + rewrite slot_with_slot_eq in Hd. injection Hd as <-.
          cbn [items] in Hl'. injection Hl' as <-. lia.
        + rewrite slot_with_slot_ne in Hd by done.
          pose proof (Harr k' d l' Hd Hl'). lia.
      - intros d l' Hd Hl'. rewrite Ho. rewrite HW in Hd.
        destruct Hc as [->|[s ->]]; [by apply (Hobj d l')|].
        rewrite siteConfig_with_slot in Hd. by apply (Hobj d l'). }
    destruct (save_result (net (requests w) q)) as [s|e]; cbn [snd].
    + split; [reflexivity|]. split; [reflexivity|].
      split; [eapply Hwf'; [reflexivity | reflexivity | right; by eexists | reflexivity]|].
      split; [reflexivity|]. split; [reflexivity|].
      unfold grid.
      cbn [content arrays with_syncStatus with_toasts with_content with_requests
           with_arrays].
      rewrite slot_with_slot_eq. cbn [mbind option_bind items sha].
      rewrite lookup_alloc_last. by split.
    + split; [reflexivity|]. split; [reflexivity|].
      split; [eapply Hwf'; [reflexivity | reflexivity | by left | reflexivity]|].
      split; [reflexivity|]. split; [reflexivity|]. split; [reflexivity|].
      unfold grid.
      cbn [content arrays with_syncStatus with_toasts with_content with_requests
           with_arrays].
      by rewrite Hl.
Qed.

(** What executeDelete sends for a loaded collection, and the world it
    leaves. *)
Lemma executeDelete_outcome (w : World) (type id : string) (k : Kind) (l : loc) :
  cache_in_store w ->
  deleteContext w = (type, id) ->
  kind_of_type type = Some k ->
  slot k (content w) ≫= items = Some l ->
  let doc := remove (grid k w) id in
  let q := write_request (github w) (kind_path k)
                         (JObj [(kind_key k, JArr (map JObj doc))])
                         (slot k (content w) ≫= sha) in
  let w' := exec (executeDelete net) w in
  requests w' = (requests w ++ [q])%list
  /\ github w' = github w
  /\ cache_in_store w'
  /\ match save_result (net (requests w) q) with
     | Ok s =>
         syncStatus w' = "synced"
         /\ toasts w' = (toasts w ++ [("Item deleted successfully!", "success")])%list
         /\ grid k w' = doc
         /\ slot k (content w') ≫= sha = s
     | Throw e =>
         syncStatus w' = "error"
         /\ toasts w' = (toasts w ++ [(("Error deleting item: " ++ exn_message e)%string,
                                       "error")])%list
         /\ content w' = content w
         /\ grid k w' = grid k w
     end.
Proof.
  intros Hwf Hctx Hk Hl doc q w'. subst w'. unfold exec.
  pose proof (cached_in_range k w l Hwf Hl) as Hlt.
  rewrite (executeDelete_cached net w type id k l Hctx Hk Hl). cbn zeta.
  rewrite <- (grid_cached k w l Hl). fold doc q.
  assert (Hwf' : forall (c : Content) (W : World),
             arrays W = (arrays w ++ [doc])%list -> objects W = objects w ->
             (c = content w \/ exists s, c = with_slot k
                         (Some {| items := Some (length (arrays w)); sha := s |})
                         (content w)) ->
             content W = c -> cache_in_store W).
  { intros c W Ha Ho Hc HW. destruct Hwf as [Harr Hobj]. split.
    - intros k' d l' Hd Hl'. rewrite Ha, length_app. simpl. rewrite HW in Hd.
      destruct Hc as [->|[s ->]]; [pose proof (Harr k' d l' Hd Hl'); lia|].
      destruct (decide (k' = k)) as [->|Hne].
      + rewrite slot_with_slot_eq in Hd. injection Hd as <-.
        cbn [items] in Hl'. injection Hl' as <-. lia.
      + rewrite slot_with_slot_ne in Hd by done.
        pose proof (Harr k' d l' Hd Hl'). lia.
    - intros d l' Hd Hl'. rewrite Ho. rewrite HW in Hd.
      destruct Hc as [->|[s ->]]; [by apply (Hobj d l')|].
      rewrite siteConfig_with_slot in Hd. by apply (Hobj d l'). }
  destruct (save_result (net (requests w) q)) as [s|e]; cbn [snd].
  - split; [reflexivity|]. split; [reflexivity|].
    split; [eapply Hwf'; [reflexivity | reflexivity | right; by eexists | reflexivity]|].
    split; [reflexivity|]. split; [reflexivity|].
    unfold grid.
    cbn [content arrays with_syncStatus with_toasts with_content with_requests
         with_arrays].
    rewrite slot_with_slot_eq. cbn [mbind option_bind items sha].
    rewrite lookup_alloc_last. by split.
  - split; [reflexivity|]. split; [reflexivity|].
    split; [eapply Hwf'; [reflexivity | reflexivity | by left | reflexivity]|].
    split; [reflexivity|]. split; [reflexivity|]. split; [reflexivity|].
    unfold grid.
    cbn [content arrays with_syncStatus with_toasts with_content with_requests
         with_arrays].
    rewrite Hl. by rewrite lookup_app_l.
Qed.

Lemma record_has_id (k : Kind) (formId : string) (now : Z) (fields : jsobj) :
  item_id (record_of k formId now fields) = Some (JStr (record_id k formId now)).
Proof. reflexivity. Qed.

End Outcome.


(** X6. The revision returned by an accepted save is the one the next
    save, and the next delete, of that collection send, together with the
    document built from the one just cached. *)
Theorem next_write_sends_returned_revision
        (net : list Request -> Request -> FetchOutcome) (k : Kind)
        (formId : string) (now : Z) (fields : jsobj)
        (formId' : string) (now' : Z) (fields' : jsobj) (type id : string)
        (w : World) (r : Response) (s : option string) :
  cache_in_store w ->
  let doc := upsert (grid k w) (record_id k formId now) (record_of k formId now fields) in
  let q := write_request (github w) (kind_path k)
                         (JObj [(kind_key k, JArr (map JObj doc))])
                         (slot k (content w) ≫= sha) in
  net (requests w) q = Responded r -> ok r = true -> payload r = BodyCommit s ->
  kind_of_type type = Some k ->
  let w1 := exec (saveItem net k formId now fields) w in
  requests (exec (saveItem net k formId' now' fields') w1)
  = (requests w ++ [q; write_request (github w) (kind_path k)
                         (JObj [(kind_key k,
                                 JArr (map JObj (upsert doc (record_id k formId' now')
                                                        (record_of k formId' now' fields'))))])
                         s])%list
  /\ requests (exec (confirmDelete type id >> executeDelete net) w1)
     = (requests w ++ [q; write_request (github w) (kind_path k)
                            (JObj [(kind_key k, JArr (map JObj (remove doc id)))])
                            s])%list.
Proof.
  intros Hwf doc q Hnet Hok Hbody Hk w1.
  destruct (saveItem_outcome net k formId now fields w Hwf) as (Hreq & Hg & Hwf1 & Hres).
  fold doc q in Hreq, Hres. fold w1 in Hreq, Hg, Hwf1, Hres.
  rewrite Hnet, (save_result_commit r s Hok Hbody) in Hres.
  destruct Hres as (_ & _ & Hgrid & Hsha).
  split.
  - destruct (saveItem_outcome net k formId' now' fields' w1 Hwf1) as (Hreq' & _).
    rewrite Hreq', Hreq, Hgrid, Hsha, Hg. by rewrite <- app_assoc.
  - assert (Hitems : exists l, slot k (content w1) ≫= items = Some l).
    { destruct (slot k (content w1) ≫= items) as [l|] eqn:Hl; [eauto|].
      pose proof (grid_fresh k w1 Hl) as Hnil. rewrite Hgrid in Hnil.
      unfold doc, upsert in Hnil.
      destruct (findIndex _ (grid k w)) as [i|] eqn:Hi; [|discriminate].
      destruct (findIndex_Some _ _ _ Hi) as [[a [Ha _]] _].
      apply (f_equal length) in Hnil. rewrite length_insert in Hnil.
      apply lookup_lt_Some in Ha. simpl in Hnil. lia. }
    destruct Hitems as [l Hl].
    unfold exec, bind, confirmDelete, modify.
    set (w1' := with_deleteContext (type, id) w1).
    assert (Hwf1' : cache_in_store w1') by (destruct Hwf1; by split).
    destruct (executeDelete_outcome net w1' type id k l Hwf1' eq_refl Hk Hl)
      as (Hreq' & _).
    unfold exec in Hreq'. rewrite Hreq'.
    change (requests w1') with (requests w1). change (github w1') with (github w1).
    change (grid k w1') with (grid k w1). change (content w1') with (content w1).
    rewrite Hreq, Hgrid, Hsha, Hg. by rewrite <- app_assoc.
Qed.

(** X7. The ids of a cached collection stay pairwise distinct through
    every save and every delete of that collection, whatever the store
    answers. *)
Theorem saves_and_deletes_keep_ids_distinct
        (net : list Request -> Request -> FetchOutcome) (k : Kind) (w : World) :
  cache_in_store w ->
  NoDup (item_id <$> grid k w) ->
  (forall formId now fields,
      NoDup (item_id <$> grid k (exec (saveItem net k formId now fields) w)))
  /\ (forall type id,
         kind_of_type type = Some k ->
         NoDup (item_id <$> grid k (exec (confirmDelete type id >> executeDelete net) w))).
Proof.
  intros Hwf Hnd. split.
  - intros formId now fields.
    destruct (saveItem_outcome net k formId now fields w Hwf) as (_ & _ & _ & Hres).
    assert (Hdoc : NoDup (item_id <$> upsert (grid k w) (record_id k formId now)
                                             (record_of k formId now fields))).
    { destruct (findIndex (id_is (record_id k formId now)) (grid k w)) as [i|] eqn:Hfind.
      - rewrite (upsert_found _ _ _ _ Hfind).
        destruct (findIndex_Some _ _ _ Hfind) as [[b [Hb Hpb]] _].
        apply id_is_item_id in Hpb.
        rewrite list_fmap_insert, list_insert_id; [exact Hnd|].
        rewrite list_lookup_fmap, Hb. simpl. by rewrite Hpb.
      - rewrite (upsert_fresh _ _ _ Hfind). rewrite fmap_cons.
        apply NoDup_cons_2; [|exact Hnd].
        intros Hin. apply list_elem_of_fmap in Hin as [a [Ha Hin]].
        apply (proj1 (findIndex_None _ _)) with (x := a) in Hfind; [|exact Hin].
        apply id_is_false in Hfind. rewrite record_has_id in Ha. congruence. }
    destruct (save_result _) as [s|e].
    + destruct Hres as (_ & _ & -> & _). exact Hdoc.
    + destruct Hres as (_ & _ & _ & ->).
      destruct (slot k (content w) ≫= items); [exact Hdoc | constructor].
  - intros type id Hk. unfold exec, bind, confirmDelete, modify.
    set (w' := with_deleteContext (type, id) w).
    assert (Hwf' : cache_in_store w') by (destruct Hwf; by split).
    destruct (slot k (content w') ≫= items) as [l|] eqn:Hl.
    + destruct (executeDelete_outcome net w' type id k l Hwf' eq_refl Hk Hl)
        as (_ & _ & _ & Hres).
      unfold exec in Hres. change (grid k w') with (grid k w) in Hres.
      destruct (save_result _) as [s|e].
      * destruct Hres as (_ & _ & -> & _).
        eapply sublist_NoDup; [exact Hnd|].
        apply fmap_sublist. unfold remove. apply filter_sublist.
      * destruct Hres as (_ & _ & _ & ->). exact Hnd.
    + rewrite (executeDelete_unloaded net w' type id k eq_refl Hk Hl). exact Hnd.
Qed.


(** X9. A record whose write failed stays in the cached array of a
    loaded collection, so the next save sends it too: saving again under
    the same id sends the record once; saving a new record again, under a
    newly generated id, sends it twice. *)
Theorem failed_save_stays_in_next_document
        (net : list Request -> Request -> FetchOutcome) (k : Kind)
        (formId : string) (now : Z) (fields : jsobj)
        (formId' : string) (now' : Z) (fields' : jsobj)
        (w : World) (l : loc) (reason : string) :
  cache_in_store w ->
  slot k (content w) ≫= items = Some l ->
  let id1 := record_id k formId now in
  let a1 := record_of k formId now fields in
  let id2 := record_id k formId' now' in
  let a2 := record_of k formId' now' fields' in
  let q := write_request (github w) (kind_path k)
                         (JObj [(kind_key k, JArr (map JObj (upsert (grid k w) id1 a1)))])
                         (slot k (content w) ≫= sha) in
  net (requests w) q = Rejected reason ->
  let w1 := exec (saveItem net k formId now fields) w in
  let doc2 := upsert (upsert (grid k w) id1 a1) id2 a2 in
  requests (exec (saveItem net k formId' now' fields') w1)
  = (requests w ++ [q; write_request (github w) (kind_path k)
                         (JObj [(kind_key k, JArr (map JObj doc2))])
                         (slot k (content w) ≫= sha)])%list
  /\ (id1 = id2 -> doc2 = upsert (grid k w) id2 a2)
  /\ (id1 <> id2 ->
      (forall a, a ∈ grid k w ->
                 item_id a <> Some (JStr id1) /\ item_id a <> Some (JStr id2)) ->
      doc2 = a2 :: a1 :: grid k w).
Proof.
  intros Hwf Hl id1 a1 id2 a2 q Hnet w1 doc2.
  destruct (saveItem_outcome net k formId now fields w Hwf) as (Hreq & Hg & Hwf1 & Hres).
  fold id1 a1 q in Hreq, Hres. fold w1 in Hreq, Hg, Hwf1, Hres.
  rewrite Hnet in Hres. cbn [save_result saved_of] in Hres.
  destruct Hres as (_ & _ & Hc & Hgrid). rewrite Hl in Hgrid.
  split; [|split].
  - destruct (saveItem_outcome net k formId' now' fields' w1 Hwf1) as (Hreq' & _).
    rewrite Hreq', Hreq, Hgrid, Hc, Hg. by rewrite <- app_assoc.
  - intros Hid. unfold doc2. rewrite Hid. apply upsert_again. subst id2 a1.
    rewrite <- Hid. apply record_has_id.
  - intros Hne Hfresh. unfold doc2.
    assert (H1 : findIndex (id_is id1) (grid k w) = None).
    { apply findIndex_None. intros a Ha. apply id_is_false. by apply Hfresh. }
    rewrite (upsert_fresh _ _ _ H1).
    apply upsert_fresh. apply findIndex_None. intros a Ha.
    apply elem_of_cons in Ha as [->|Ha].
    + apply id_is_false. unfold a1. rewrite record_has_id. fold id1. congruence.
    + apply id_is_false. by apply Hfresh.
Qed.

(** ** The credential gate *)



Section Login.

Variable net : list Request -> Request -> FetchOutcome.

Lemma handleLogin_refused (form : Credentials) (w : World) :
  match net (requests w) (probe_request form) with
  | Rejected _ => True
  | Responded r => ok r = false
  end ->
  handleLogin net form w
  = (Ok tt,
     with_loginError
       match net (requests w) (probe_request form) with
       | Rejected reason => reason
       | Responded _ => "Invalid credentials or repository not found"
       end
       (with_requests (requests w ++ [probe_request form]) (with_loginError "" w))).
Proof.
  intros H. unfold handleLogin.
  erewrite bind_Ok by reflexivity. unfold try_catch.
  unfold bind at 1. rewrite fetch_eq. cbn [requests with_loginError].
  destruct (net (requests w) (probe_request form)) as [reason|r]; [reflexivity|].
  rewrite H. reflexivity.
Qed.


Lemma init_saved (c : Credentials) :
  init net (initial_world (Some c))
  = loadAllContent net (with_dashboard true (with_github c (initial_world (Some c)))).
Proof.
  unfold init. erewrite bind_Ok by reflexivity. cbn [localStorage initial_world].
  erewrite bind_Ok by reflexivity. unfold showDashboard.
  erewrite bind_Ok by reflexivity.
  destruct (loadAllContent_views net
              (with_dashboard true (with_github c (initial_world (Some c)))))
    as [Hres _].
  unfold result in Hres.
  destruct (loadAllContent net _) as [res w']. cbn [fst] in Hres. by subst res.
Qed.








Lemma images_of_all (o : FetchOutcome) (old : list FileEntry) :
  all_images old -> all_images (images_of o old).
Proof.
  intros Hold. unfold images_of. destruct o as [m|r]; [exact Hold|].
  destruct (ok r); [|exact Hold]. destruct (payload r); try exact Hold.
  unfold all_images. rewrite Forall_forall. intros f Hf.
  apply list_elem_of_In, filter_In in Hf. tauto.
Qed.

End Login.

(** X10. A login the store does not accept, or whose probe fails, stores
    nothing: the credentials in memory and in local storage, the cache
    and the screen are as before, the probe is the only request, and the
    login error shows the reason. *)
Theorem refused_login_stores_nothing
        (net : list Request -> Request -> FetchOutcome) (form : Credentials) (w : World) :
  match net (requests w) (probe_request form) with
  | Rejected _ => True
  | Responded r => ok r = false
  end ->
  let w' := exec (handleLogin net form) w in
  github w' = github w
  /\ localStorage w' = localStorage w
  /\ content w' = content w
  /\ dashboard w' = dashboard w
  /\ requests w' = (requests w ++ [probe_request form])%list
  /\ loginError w' = match net (requests w) (probe_request form) with
                     | Rejected reason => reason
                     | Responded _ => "Invalid credentials or repository not found"
                     end.
Proof.
  intros H w'. subst w'. unfold exec. rewrite (handleLogin_refused net form w H).
  repeat split.
Qed.

(** X11. An accepted login survives a reload of the page: the stored
    credentials are taken without a probe and Load-all runs under them.
    After logout, and when nothing is stored, a reload sends nothing and
    stays on the login screen. *)
Theorem reload_follows_stored_credentials
        (net net' : list Request -> Request -> FetchOutcome)
        (form : Credentials) (w : World) (r : Response) :
  net (requests w) (probe_request form) = Responded r ->
  ok r = true ->
  let saved := localStorage (exec (handleLogin net form) w) in
  let w' := exec (init net') (initial_world saved) in
  saved = Some form
  /\ github w' = form
  /\ dashboard w' = true
  /\ requests w' = load_requests form
  /\ exec (init net') (initial_world (localStorage (exec logout w))) = initial_world None
  /\ exec (init net') (initial_world None) = initial_world None.
Proof.
  intros Hnet Hok saved w'.
  assert (Hsaved : saved = Some form).
  { subst saved. unfold exec. rewrite (handleLogin_accepted net form w r Hnet Hok).
    destruct (loadAllContent_views net
                (with_dashboard true
                   (with_localStorage (Some form)
                      (with_github form
                         (with_requests (requests w ++ [probe_request form])
                            (with_loginError "" w)))))) as (_ & _ & _ & _ & _ & _ & _ & _ & _ & _ & Hl).
    exact Hl. }
  split; [exact Hsaved|]. subst w'. rewrite Hsaved. unfold exec at 1 2 3.
  rewrite init_saved.
  set (w0 := with_dashboard true (with_github form (initial_world (Some form)))).
  destruct (loadAllContent_views net' w0)
    as (_ & _ & _ & Hreq & _ & _ & _ & _ & _ & Hg & _).
  pose proof (loadAllContent_run net' w0) as Hrun. cbn zeta in Hrun.
  unfold exec in *. split; [exact Hg|]. split; [by rewrite Hrun|].
  split; [exact Hreq|]. split; reflexivity.
Qed.


(** X13. The image list only ever holds files with the name of an image:
    a listing, a delete of an image and Load-all keep it so, whatever the
    store answers. *)
Theorem image_list_holds_images
        (net : list Request -> Request -> FetchOutcome) (w : World) :
  all_images (images w) ->
  all_images (images (exec (loadImages net) w))
  /\ (forall path sha confirmed,
         all_images (images (exec (deleteImage net path sha confirmed) w)))
  /\ all_images (images (exec (loadAllContent net) w)).
Proof.
  intros Hall. split; [|split].
  - unfold exec. rewrite loadImages_eq. by apply images_of_all.
  - intros path sha [|]; unfold exec; [|exact Hall].
    rewrite deleteImage_eq. cbn zeta.
    destruct (net (requests w) (delete_request (github w) path sha)) as [m|r];
      [exact Hall|].
    destruct (ok r); [|exact Hall].
    rewrite loadImages_eq. by apply images_of_all.
  - destruct (loadAllContent_views net w) as (_ & _ & _ & _ & _ & _ & _ & _ & Hi & _).
    rewrite Hi. by apply images_of_all.
Qed.


(** ** The name of an uploaded image *)

Section Upload.

Lemma lower_stored (c : ascii) :
  stored_char (lower (if filename_char c then c else "-"%char)) = true.
Proof. destruct c as [[] [] [] [] [] [] [] []]; reflexivity. Qed.

Lemma lower_fixed (c : ascii) : stored_char c = true -> lower c = c.
Proof. destruct c as [[] [] [] [] [] [] [] []]; (reflexivity || discriminate). Qed.

Lemma stored_is_filename_char (c : ascii) : stored_char c = true -> filename_char c = true.
Proof. destruct c as [[] [] [] [] [] [] [] []]; (reflexivity || discriminate). Qed.

Lemma lower_safe (c : ascii) :
  stored_char (lower c) = true -> lower (if filename_char c then c else "-"%char) = lower c.
Proof. destruct c as [[] [] [] [] [] [] [] []]; (reflexivity || discriminate). Qed.

Lemma lower_lower (c : ascii) : lower (lower c) = lower c.
Proof. destruct c as [[] [] [] [] [] [] [] []]; reflexivity. Qed.

Lemma upload_filename_cons (c : ascii) (s : string) :
  upload_filename (String c s)
  = String (lower (if filename_char c then c else "-"%char)) (upload_filename s).
Proof. reflexivity. Qed.

Lemma lowercase_cons (c : ascii) (s : string) :
  lowercase (String c s) = String (lower c) (lowercase s).
Proof. reflexivity. Qed.

Lemma upload_filename_stored (name : string) :
  all_chars stored_char (upload_filename name) = true.
Proof.
  induction name as [|c s IH]; [reflexivity|].
  rewrite upload_filename_cons. cbn [all_chars]. by rewrite lower_stored, IH.
Qed.

Lemma upload_filename_length (name : string) :
  String.length (upload_filename name) = String.length name.
Proof.
  induction name as [|c s IH]; [reflexivity|].
  rewrite upload_filename_cons. cbn [String.length]. by rewrite IH.
Qed.

Lemma upload_filename_fixed (name : string) :
  all_chars stored_char name = true -> upload_filename name = name.
Proof.
  induction name as [|c s IH]; [reflexivity|]. cbn [all_chars].
  intros H. apply andb_prop in H as [Hc Hs].
  rewrite upload_filename_cons, (IH Hs), (stored_is_filename_char c Hc).
  by rewrite (lower_fixed c Hc).
Qed.

Lemma lowercase_length (s : string) : String.length (lowercase s) = String.length s.
Proof.
  induction s as [|c s IH]; [reflexivity|].
  rewrite lowercase_cons. cbn [String.length]. by rewrite IH.
Qed.

Lemma lowercase_substring (s : string) (i m : nat) :
  substring i m (lowercase s) = lowercase (substring i m s).
Proof.
  revert i m. induction s as [|c s IH]; intros [|i] [|m]; try reflexivity.
  - rewrite lowercase_cons. cbn [substring]. rewrite lowercase_cons. by rewrite IH.
  - rewrite lowercase_cons. cbn [substring]. apply IH.
  - rewrite lowercase_cons. cbn [substring]. apply IH.
Qed.

Lemma upload_filename_substring (s : string) (i m : nat) :
  substring i m (upload_filename s) = upload_filename (substring i m s).
Proof.
  revert i m. induction s as [|c s IH]; intros [|i] [|m]; try reflexivity.
  - rewrite upload_filename_cons. cbn [substring]. rewrite upload_filename_cons.
    by rewrite IH.
  - rewrite upload_filename_cons. cbn [substring]. apply IH.
  - rewrite upload_filename_cons. cbn [substring]. apply IH.
Qed.

Lemma upload_filename_of_stored_lowercase (s : string) :
  all_chars stored_char (lowercase s) = true -> upload_filename s = lowercase s.
Proof.
  induction s as [|c s IH]; [reflexivity|].
  rewrite lowercase_cons. cbn [all_chars]. intros H.
  apply andb_prop in H as [Hc Hs].
  rewrite upload_filename_cons, (IH Hs). by rewrite (lower_safe c Hc).
Qed.

Lemma lowercase_upload_filename (s : string) :
  lowercase (upload_filename s) = upload_filename s.
Proof.
  induction s as [|c s IH]; [reflexivity|].
  rewrite upload_filename_cons, lowercase_cons, IH. by rewrite lower_lower.
Qed.

Lemma ends_with_upload (ext name : string) :
  all_chars stored_char ext = true ->
  ends_with ext (lowercase name) = true ->
  ends_with ext (lowercase (upload_filename name)) = true.
Proof.
  intros Hext. unfold ends_with.
  rewrite lowercase_upload_filename, lowercase_length, upload_filename_length.
  rewrite lowercase_substring, upload_filename_substring.
  intros H. apply andb_prop in H as [Hlen Heq]. rewrite Hlen. cbn [andb].
  apply String.eqb_eq in Heq. apply String.eqb_eq.
  rewrite upload_filename_of_stored_lowercase; [exact Heq|]. by rewrite Heq.
Qed.

Lemma lower_kept (c : ascii) :
  letter_or_dot (lower (if filename_char c then c else "-"%char)) = true ->
  lower c = lower (if filename_char c then c else "-"%char).
Proof. destruct c as [[] [] [] [] [] [] [] []]; (reflexivity || discriminate). Qed.

Lemma upload_filename_letters (s : string) :
  all_chars letter_or_dot (upload_filename s) = true -> lowercase s = upload_filename s.
Proof.
  induction s as [|c s IH]; [reflexivity|].
  rewrite upload_filename_cons, lowercase_cons. cbn [all_chars]. intros H.
  apply andb_prop in H as [Hc Hs]. by rewrite (IH Hs), (lower_kept c Hc).
Qed.

Lemma ends_with_upload_inv (ext name : string) :
  all_chars letter_or_dot ext = true ->
  ends_with ext (lowercase (upload_filename name)) = true ->
  ends_with ext (lowercase name) = true.
Proof.
  intros Hext. unfold ends_with.
  rewrite lowercase_upload_filename, lowercase_length, upload_filename_length.
  rewrite lowercase_substring, upload_filename_substring.
  intros H. apply andb_prop in H as [Hlen Heq]. rewrite Hlen. cbn [andb].
  apply String.eqb_eq in Heq. apply String.eqb_eq.
  rewrite upload_filename_letters; [exact Heq|]. by rewrite Heq.
Qed.

End Upload.

(** X15. The name an uploaded image is stored under has the length of
    the file's name and consists of lower-case letters, digits, dots and
    hyphens only; a name that already does is kept, so cleaning a name
    twice changes nothing more. *)
Theorem upload_filename_is_clean (name : string) :
  all_chars stored_char (upload_filename name) = true
  /\ String.length (upload_filename name) = String.length name
  /\ (all_chars stored_char name = true -> upload_filename name = name)
  /\ upload_filename (upload_filename name) = upload_filename name.
Proof.
  split; [apply upload_filename_stored|]. split; [apply upload_filename_length|].
  split; [apply upload_filename_fixed|].
  apply upload_filename_fixed, upload_filename_stored.
Qed.

(** X16. The name a file is uploaded as has one of the image extensions
    of the listing exactly when the file's own name has one, in any case:
    an image so named is listed after its upload, and a file with another
    extension is stored under a name the listing filters out. *)
Theorem upload_keeps_image_extension (name : string) :
  is_image_name (upload_filename name) = is_image_name name.
Proof.
  assert (H : forall ext,
             In ext [".jpg"; ".jpeg"; ".png"; ".gif"; ".webp"; ".svg"] ->
             ends_with ext (lowercase (upload_filename name))
             = ends_with ext (lowercase name)).
  { intros ext Hin. apply eq_true_iff_eq. split; intros H.
    - apply ends_with_upload_inv; [|exact H]. simpl in Hin.
      repeat (destruct Hin as [<-|Hin]; [reflexivity|]). contradiction.
    - apply ends_with_upload; [|exact H]. simpl in Hin.
      repeat (destruct Hin as [<-|Hin]; [reflexivity|]). contradiction. }
  unfold is_image_name. cbn [existsb].
  by rewrite !H by (simpl; tauto).
Qed.

(** ** The settings document *)

Section SettingsKeys.

Lemma get_set_eq (k : string) (v : json) (o : jsobj) : get k (set k v o) = Some v.
Proof.
  induction o as [|[k' v'] o IH]; simpl.
  - by rewrite String.eqb_refl.
  - destruct (String.eqb k k') eqn:Hk; simpl.
    + by rewrite String.eqb_refl.
    + by rewrite Hk.
Qed.

Lemma get_set_ne (k k' : string) (v : json) (o : jsobj) :
  k' <> k -> get k' (set k v o) = get k' o.
Proof.
  intros Hne. assert (Hn : String.eqb k' k = false) by (by apply String.eqb_neq).
  induction o as [|[k0 v0] o IH]; simpl.
  - by rewrite Hn.
  - destruct (String.eqb k k0) eqn:Hk; simpl.
    + apply String.eqb_eq in Hk. subst k0. by rewrite Hn.
    + destruct (String.eqb k' k0); [reflexivity | exact IH].
Qed.

Lemma set_same (k : string) (v : json) (o : jsobj) :
  get k o = Some v -> set k v o = o.
Proof.
  induction o as [|[k' v'] o IH]; simpl; [discriminate|].
  destruct (String.eqb k k') eqn:Hk.
  - apply String.eqb_eq in Hk. subst k'. by intros [= ->].
  - intros H. by rewrite (IH H).
Qed.

Lemma or_str_truthy (v : option json) (d : string) :
  d <> "" -> truthy (Some (or_str v d)) = true.
Proof.
  intros Hd. unfold or_str. destruct v as [x|].
  - destruct (truthy (Some x)) eqn:Hx; [exact Hx|].
    simpl. destruct d; [contradiction | reflexivity].
  - simpl. destruct d; [contradiction | reflexivity].
Qed.

Lemma or_str_again (v : option json) (d : string) :
  d <> "" -> or_str (Some (or_str v d)) d = or_str v d.
Proof.
  intros Hd. pose proof (or_str_truthy v d Hd) as H.
  unfold or_str at 1. by rewrite H.
Qed.

End SettingsKeys.

(** X17. Saving the settings assigns the eight keys of the form and
    leaves every other key of the settings object as it was. *)
Theorem settings_save_keeps_other_keys (f : SettingsForm) (c : jsobj) :
  (forall k, k ∉ settings_keys -> get k (apply_settings f c) = get k c)
  /\ get "siteName" (apply_settings f c) = Some (JStr (siteName f))
  /\ get "siteTagline" (apply_settings f c) = Some (JStr (siteTagline f))
  /\ get "siteDescription" (apply_settings f c) = Some (JStr (siteDescription f))
  /\ optional_get (get "colors" (apply_settings f c)) "primary" = Some (JStr (colorPrimary f))
  /\ optional_get (get "colors" (apply_settings f c)) "secondary"
     = Some (JStr (colorSecondary f))
  /\ optional_get (get "colors" (apply_settings f c)) "accent" = Some (JStr (colorAccent f))
  /\ get "stats" (apply_settings f c)
     = Some (JArr [JObj [("value", JStr (stat1Value f)); ("label", JStr (stat1Label f))];
                   JObj [("value", JStr (stat2Value f)); ("label", JStr (stat2Label f))];
                   JObj [("value", JStr (stat3Value f)); ("label", JStr (stat3Label f))]])
  /\ get "contact" (apply_settings f c)
     = Some (JObj [("email", JStr (contactEmail f)); ("phone", JStr (contactPhone f));
                   ("address", JStr (contactAddress f))])
  /\ get "social" (apply_settings f c)
     = Some (JObj [("facebook", JStr (socialFacebook f));
                   ("twitter", JStr (socialTwitter f));
                   ("instagram", JStr (socialInstagram f));
                   ("linkedin", JStr (socialLinkedin f))]).
Proof.
  unfold apply_settings. cbn zeta.
  split.
  { intros k Hk. unfold settings_keys in Hk. rewrite !not_elem_of_cons in Hk.
    destruct Hk as (H1 & H2 & H3 & H4 & H5 & H6 & H7 & H8 & _).
    by rewrite !get_set_ne by done. }
  repeat split;
    repeat first [ rewrite get_set_eq | rewrite get_set_ne by discriminate ];
    reflexivity.
Qed.

(** X18. Of the colours, the three derived shades are kept when the
    settings object has them and take their defaults otherwise, and every
    other key under [colors] is dropped; the keys of an existing [hero]
    object other than badge, title and subtitle are kept. *)
Theorem settings_save_shades_and_hero (f : SettingsForm) (c : jsobj) :
  optional_get (get "colors" (apply_settings f c)) "primaryLight"
  = Some (or_str (optional_get (get "colors" c) "primaryLight") "#2D7A5F")
  /\ optional_get (get "colors" (apply_settings f c)) "primaryDark"
     = Some (or_str (optional_get (get "colors" c) "primaryDark") "#0F2E25")
  /\ optional_get (get "colors" (apply_settings f c)) "accentLight"
     = Some (or_str (optional_get (get "colors" c) "accentLight") "#F4C77A")
  /\ (forall k, k ∉ ["primary"; "primaryLight"; "primaryDark"; "secondary"; "accent";
                     "accentLight"] ->
                optional_get (get "colors" (apply_settings f c)) k = None)
  /\ (forall h, get "hero" c = Some (JObj h) ->
                optional_get (get "hero" (apply_settings f c)) "badge"
                = Some (JStr (heroBadge f))
                /\ optional_get (get "hero" (apply_settings f c)) "title"
                   = Some (JStr (heroTitle f))
                /\ optional_get (get "hero" (apply_settings f c)) "subtitle"
                   = Some (JStr (heroSubtitle f))
                /\ (forall k, k ∉ ["badge"; "title"; "subtitle"] ->
                              optional_get (get "hero" (apply_settings f c)) k = get k h))
  /\ (truthy (get "hero" c) = false ->
      get "hero" (apply_settings f c)
      = Some (JObj [("badge", JStr (heroBadge f)); ("title", JStr (heroTitle f));
                    ("subtitle", JStr (heroSubtitle f))])).
Proof.
  unfold apply_settings. cbn zeta.
  assert (Hcol : forall v, get "colors"
            (set "siteDescription" (JStr (siteDescription f))
               (set "siteTagline" (JStr (siteTagline f))
                  (set "siteName" (JStr (siteName f)) c))) = v -> get "colors" c = v).
  { intros v <-. by rewrite !get_set_ne by discriminate. }
  rewrite (Hcol _ eq_refl).
  split; [|split; [|split; [|split; [|split]]]].
  - repeat first [ rewrite get_set_eq | rewrite get_set_ne by discriminate ]. reflexivity.
  - repeat first [ rewrite get_set_eq | rewrite get_set_ne by discriminate ]. reflexivity.
  - repeat first [ rewrite get_set_eq | rewrite get_set_ne by discriminate ]. reflexivity.
  - intros k Hk. rewrite !not_elem_of_cons in Hk.
    destruct Hk as (H1 & H2 & H3 & H4 & H5 & H6 & _).
    repeat first [ rewrite get_set_eq | rewrite get_set_ne by discriminate ].
    cbn [optional_get get].
    apply String.eqb_neq in H1, H2, H3, H4, H5, H6.
    by rewrite H1, H2, H3, H4, H5, H6.
  - intros h Hh.
    repeat first [ rewrite get_set_eq | rewrite get_set_ne by discriminate ].
    rewrite Hh. cbn [optional_get].
    split; [|split; [|split]].
    + repeat first [ rewrite get_set_eq | rewrite get_set_ne by discriminate ]. reflexivity.
    + repeat first [ rewrite get_set_eq | rewrite get_set_ne by discriminate ]. reflexivity.
    + repeat first [ rewrite get_set_eq | rewrite get_set_ne by discriminate ]. reflexivity.
    + intros k Hk. rewrite !not_elem_of_cons in Hk. destruct Hk as (H1 & H2 & H3 & _).
      by rewrite !get_set_ne by done.
  - intros Hfalsy.
    repeat first [ rewrite get_set_eq | rewrite get_set_ne by discriminate ].
    destruct (get "hero" c) as [[| | | | |]|]; try reflexivity; try discriminate.
    + by rewrite Hfalsy.
    + by rewrite Hfalsy.
    + by rewrite Hfalsy.
Qed.

Section SettingsTwice.

Variable net : list Request -> Request -> FetchOutcome.

Lemma hero_fields_again (b t s : json) (h : jsobj) :
  set "subtitle" s (set "title" t (set "badge" b
     (set "subtitle" s (set "title" t (set "badge" b h)))))
  = set "subtitle" s (set "title" t (set "badge" b h)).
Proof.
  set (h' := set "subtitle" s (set "title" t (set "badge" b h))).
  assert (Hb : get "badge" h' = Some b).
  { subst h'. rewrite !get_set_ne by discriminate. apply get_set_eq. }
  assert (Ht : get "title" h' = Some t).
  { subst h'. rewrite !get_set_ne by discriminate. apply get_set_eq. }
  assert (Hs : get "subtitle" h' = Some s).
  { subst h'. apply get_set_eq. }
  by rewrite (set_same _ _ _ Hb), (set_same _ _ _ Ht), (set_same _ _ _ Hs).
Qed.

Lemma apply_settings_get (f : SettingsForm) (c : jsobj) :
  get "siteName" (apply_settings f c) = Some (JStr (siteName f))
  /\ get "siteTagline" (apply_settings f c) = Some (JStr (siteTagline f))
  /\ get "siteDescription" (apply_settings f c) = Some (JStr (siteDescription f))
  /\ get "colors" (apply_settings f c)
     = Some (JObj [("primary", JStr (colorPrimary f));
                   ("primaryLight",
                    or_str (optional_get (get "colors" c) "primaryLight") "#2D7A5F");
                   ("primaryDark",
                    or_str (optional_get (get "colors" c) "primaryDark") "#0F2E25");
                   ("secondary", JStr (colorSecondary f));
                   ("accent", JStr (colorAccent f));
                   ("accentLight",
                    or_str (optional_get (get "colors" c) "accentLight") "#F4C77A")])
  /\ get "hero" (apply_settings f c)
     = Some (match get "hero" c with
             | Some (JObj h) =>
                 JObj (set "subtitle" (JStr (heroSubtitle f))
                         (set "title" (JStr (heroTitle f))
                            (set "badge" (JStr (heroBadge f)) h)))
             | Some v =>
                 if truthy (Some v) then v
                 else JObj (set "subtitle" (JStr (heroSubtitle f))
                              (set "title" (JStr (heroTitle f))
                                 (set "badge" (JStr (heroBadge f)) [])))
             | None => JObj (set "subtitle" (JStr (heroSubtitle f))
                               (set "title" (JStr (heroTitle f))
                                  (set "badge" (JStr (heroBadge f)) [])))
             end)
  /\ get "stats" (apply_settings f c)
     = Some (JArr [JObj [("value", JStr (stat1Value f)); ("label", JStr (stat1Label f))];
                   JObj [("value", JStr (stat2Value f)); ("label", JStr (stat2Label f))];
                   JObj [("value", JStr (stat3Value f)); ("label", JStr (stat3Label f))]])
  /\ get "contact" (apply_settings f c)
     = Some (JObj [("email", JStr (contactEmail f)); ("phone", JStr (contactPhone f));
                   ("address", JStr (contactAddress f))])
  /\ get "social" (apply_settings f c)
     = Some (JObj [("facebook", JStr (socialFacebook f));
                   ("twitter", JStr (socialTwitter f));
                   ("instagram", JStr (socialInstagram f));
                   ("linkedin", JStr (socialLinkedin f))]).
Proof.
  unfold apply_settings. cbn zeta.
  repeat split;
    repeat first [ rewrite get_set_eq | rewrite get_set_ne by discriminate ];
    reflexivity.
Qed.

(** Applying a form to the settings it was just applied to changes
    nothing. *)
Lemma apply_settings_again (f : SettingsForm) (c : jsobj) :
  apply_settings f (apply_settings f c) = apply_settings f c.
Proof.
  destruct (apply_settings_get f c)
    as (H1 & H2 & H3 & Hcolors & Hhero & Hstats & Hcontact & Hsocial).
  set (c' := apply_settings f c) in *. clearbody c'.
  unfold apply_settings. cbn zeta.
  rewrite (set_same _ _ _ H1), (set_same _ _ _ H2), (set_same _ _ _ H3).
  rewrite Hcolors. cbn [optional_get get String.eqb Ascii.eqb Bool.eqb].
  rewrite !or_str_again by discriminate.
  rewrite (set_same _ _ _ Hcolors).
  match type of Hhero with _ = Some ?v => set (hv := v) in * end.
  assert (Hv : (exists h, hv = JObj (set "subtitle" (JStr (heroSubtitle f))
                                      (set "title" (JStr (heroTitle f))
                                         (set "badge" (JStr (heroBadge f)) h))))
               \/ (truthy (Some hv) = true /\ forall h, hv <> JObj h)).
  { subst hv.
    destruct (get "hero" c) as [[|[]|[]|[]|a|h]|]; cbn [truthy]; eauto;
      right; (split; [reflexivity | discriminate]). }
  clearbody hv. rewrite Hhero.
  assert (Hh : match hv with
               | JObj h => JObj (set "subtitle" (JStr (heroSubtitle f))
                                   (set "title" (JStr (heroTitle f))
                                      (set "badge" (JStr (heroBadge f)) h)))
               | v => if truthy (Some v) then v
                      else JObj (set "subtitle" (JStr (heroSubtitle f))
                                   (set "title" (JStr (heroTitle f))
                                      (set "badge" (JStr (heroBadge f)) [])))
               end = hv).
  { destruct Hv as [[h ->]|[Ht Hno]].
    - by rewrite hero_fields_again.
    - destruct hv as [| | | | |h]; cbv zeta; try (by rewrite Ht). by destruct (Hno h). }
  rewrite Hh. rewrite (set_same _ _ _ Hhero).
  by rewrite (set_same _ _ _ Hstats), (set_same _ _ _ Hcontact),
             (set_same _ _ _ Hsocial).
Qed.

End SettingsTwice.

(** X24. Saving the settings twice with the same form sends the same
    document twice, whatever the store answered to the first save: the
    second request differs from the first only in the revision, which is
    the one the cache holds after the first save. *)
Theorem same_settings_saved_twice
        (net : list Request -> Request -> FetchOutcome)
        (f : SettingsForm) (w : World) (l : loc) :
  cache_in_store w ->
  siteConfig (content w) ≫= config = Some l ->
  let doc := JObj (apply_settings f (default [] (objects w !! l))) in
  let w1 := exec (saveSettings net f) w in
  requests w1
  = (requests w ++ [write_request (github w) "content/site-config.json" doc
                                  (siteConfig (content w) ≫= csha)])%list
  /\ requests (exec (saveSettings net f) w1)
     = (requests w ++ [write_request (github w) "content/site-config.json" doc
                                     (siteConfig (content w) ≫= csha);
                       write_request (github w) "content/site-config.json" doc
                                     (siteConfig (content w1) ≫= csha)])%list.
Proof.
  intros [_ Hstore] Hl doc w1.
  assert (Hlen : l < length (objects w)).
  { destruct (siteConfig (content w)) as [d|] eqn:Hd; [|discriminate].
    exact (Hstore d l eq_refl Hl). }
  assert (Hlook : <[l := apply_settings f (default [] (objects w !! l))]> (objects w) !! l
                  = Some (apply_settings f (default [] (objects w !! l)))).
  { by apply list_lookup_insert_eq. }
  assert (H1 : objects w1 !! l = Some (apply_settings f (default [] (objects w !! l)))
               /\ github w1 = github w
               /\ siteConfig (content w1) ≫= config = Some l
               /\ requests w1
                  = (requests w ++ [write_request (github w) "content/site-config.json" doc
                                       (siteConfig (content w) ≫= csha)])%list).
  { subst w1. unfold exec. rewrite (saveSettings_cached net f w l Hl). cbv zeta.
    change (doc_json _ (ConfigData l))
      with (JObj (default [] (<[l := apply_settings f (default [] (objects w !! l))]>
                                (objects w) !! l))).
    change (list (string * json))%type with jsobj in *.
    rewrite Hlook. cbn [default from_option Datatypes.id]. fold doc.
    destruct (save_result _); cbn [snd]; repeat split; try exact Hlook; try exact Hl. }
  destruct H1 as (Ho & Hg & Hc & Hr).
  split; [exact Hr|].
  unfold exec at 1. rewrite (saveSettings_cached net f w1 l Hc). cbv zeta.
  assert (Hlen1 : l < length (objects w1)) by (by apply lookup_lt_Some in Ho).
  change (doc_json _ (ConfigData l))
    with (JObj (default [] (<[l := apply_settings f (default [] (objects w1 !! l))]>
                              (objects w1) !! l))).
  change (list (string * json))%type with jsobj in *.
  rewrite list_lookup_insert_eq by exact Hlen1.
  rewrite Ho. cbn [default from_option Datatypes.id]. rewrite apply_settings_again.
  fold doc. rewrite Hg.
  destruct (save_result _);
    cbn [snd requests with_syncStatus with_toasts with_content with_requests];
    rewrite Hr, <- app_assoc; reflexivity.
Qed.

(** ** What the public pages show *)

Section Shown.

Import Site.

Variable site_net : list string -> string -> option json.
Variable Date_parse : string -> option Z.




Lemma insert_filter {A} (cmp : A -> A -> Z) (p : A -> bool) (x : A) (l : list A) :
  (forall a b, p a = true -> p b = true -> (cmp a b <= 0)%Z) ->
  List.filter p (insert cmp x l) = List.filter p (x :: l).
Proof.
  intros H. induction l as [|y l IH]; [reflexivity|].
  cbn [insert]. destruct (cmp x y <=? 0)%Z eqn:Hc; [reflexivity|].
  apply Z.leb_gt in Hc. cbn [List.filter] in *.
  destruct (p y) eqn:Hy.
  - destruct (p x) eqn:Hx.
    + specialize (H x y Hx Hy). lia.
    + by rewrite IH.
  - exact IH.
Qed.

Lemma sort_filter {A} (cmp : A -> A -> Z) (p : A -> bool) (l : list A) :
  (forall a b, p a = true -> p b = true -> (cmp a b <= 0)%Z) ->
  List.filter p (sort cmp l) = List.filter p l.
Proof.
  intros H. unfold sort. induction l as [|x l IH]; [reflexivity|].
  cbn [foldr]. rewrite insert_filter by exact H.
  cbn [List.filter]. by rewrite IH.
Qed.


Lemma fetchContent_again (file : string) (w : SiteWorld) :
  truthy (fst (fetchContent site_net file w)) = true ->
  fetchContent site_net file (snd (fetchContent site_net file w))
  = fetchContent site_net file w.
Proof.
  unfold fetchContent at 1 3 4.
  destruct (truthy (get file (cache w))) eqn:Hc.
  - cbn [fst snd]. intros _. unfold fetchContent. by rewrite Hc.
  - destruct (site_net (fetched w) ("content/" ++ file)) as [data|] eqn:Hn;
      cbn [fst snd]; [|discriminate].
    intros Ht. unfold fetchContent. cbn [cache fetched].
    by rewrite get_set_eq, Ht.
Qed.

End Shown.

(** X19. Once the loader has obtained a file, further calls for it are
    answered from the cache: they return the same data and send no
    request, and the cached data of other files is untouched. (File names
    are keys of the cache object; as everywhere here, a key that was not
    assigned reads as undefined, which leaves aside the names every
    object inherits, such as [constructor].) *)
Theorem site_file_is_fetched_once
        (site_net : list string -> string -> option json) (file : string)
        (w : Site.SiteWorld) :
  truthy (fst (Site.fetchContent site_net file w)) = true ->
  let w1 := snd (Site.fetchContent site_net file w) in
  fst (Site.fetchContent site_net file w1) = fst (Site.fetchContent site_net file w)
  /\ snd (Site.fetchContent site_net file w1) = w1
  /\ (forall other, other <> file ->
                    get other (Site.cache w1) = get other (Site.cache w)).
Proof.
  intros Ht w1. split; [|split].
  - subst w1. rewrite fetchContent_again by exact Ht. reflexivity.
  - assert (H := fetchContent_again site_net file w Ht). fold w1 in H.
    rewrite H. unfold Site.fetchContent at 1.
    revert Ht. subst w1. unfold Site.fetchContent.
    destruct (truthy (get file (Site.cache w))) eqn:Hc; [reflexivity|].
    destruct (site_net (Site.fetched w) ("content/" ++ file)); [reflexivity|].
    discriminate.
  - intros other Ho. subst w1. unfold Site.fetchContent.
    destruct (truthy (get file (Site.cache w))); [reflexivity|].
    destruct (site_net (Site.fetched w) ("content/" ++ file)); [|reflexivity].
    cbn [snd Site.cache]. by apply get_set_ne.
Qed.

(** X20. A file the loader failed to obtain is not cached: the cache is
    as before, and the next call asks the server again and returns what
    the server answers then (same reading of the cache keys as above). *)
Theorem site_failure_is_retried
        (site_net : list string -> string -> option json) (file : string)
        (w : Site.SiteWorld) :
  fst (Site.fetchContent site_net file w) = None ->
  let w1 := snd (Site.fetchContent site_net file w) in
  Site.cache w1 = Site.cache w
  /\ Site.fetched w1 = (Site.fetched w ++ [("content/" ++ file)%string])%list
  /\ fst (Site.fetchContent site_net file w1)
     = site_net (Site.fetched w ++ [("content/" ++ file)%string])%list ("content/" ++ file)
  /\ Site.fetched (snd (Site.fetchContent site_net file w1))
     = (Site.fetched w ++ [("content/" ++ file)%string; ("content/" ++ file)%string])%list.
Proof.
  intros Hf w1. subst w1. revert Hf. unfold Site.fetchContent at 1 2 3 5 7.
  destruct (truthy (get file (Site.cache w))) eqn:Hc.
  { cbn [fst]. intros Hn. rewrite Hn in Hc. discriminate. }
  destruct (site_net (Site.fetched w) ("content/" ++ file)) as [data|] eqn:Hn;
    cbn [fst snd]; [discriminate|]. intros _.
  cbn [Site.cache Site.fetched]. split; [reflexivity|]. split; [reflexivity|].
  unfold Site.fetchContent. cbn [Site.cache Site.fetched]. rewrite Hc.
  destruct (site_net (Site.fetched w ++ [("content/" ++ file)%string])%list ("content/" ++ file));
    cbn [fst snd Site.fetched]; rewrite <- app_assoc; by repeat split.
Qed.

(** X21. The news and project cards never show a record whose
    [published] is [false], show only featured records when that option
    is set, and are at most [limit] many for a positive limit; without a
    limit, every stored record that passes the two tests is shown. *)
Theorem only_published_records_are_shown (stored : list Item) (o : Site.Options) :
  (forall a, a ∈ Site.select stored o ->
             a ∈ stored /\ Site.published a = true
             /\ (Site.featured o = true -> Site.is_featured a = true))
  /\ ((0 < Site.limit o)%Z ->
      (Z.of_nat (length (Site.select stored o)) <= Site.limit o)%Z)
  /\ (Site.limit o = 0%Z ->
      forall a, a ∈ stored -> Site.published a = true ->
                (Site.featured o = true -> Site.is_featured a = true) ->
                a ∈ Site.select stored o).
Proof.
  set (kept := if Site.featured o
               then List.filter Site.is_featured (List.filter Site.published stored)
               else List.filter Site.published stored).
  assert (Hsel : Site.select stored o
                 = if (Site.limit o =? 0)%Z then kept else Site.slice0 (Site.limit o) kept)
    by reflexivity.
  assert (Hkept : forall a, a ∈ kept <->
                            a ∈ stored /\ Site.published a = true
                            /\ (Site.featured o = true -> Site.is_featured a = true)).
  { intros a. subst kept. destruct (Site.featured o).
    - rewrite list_elem_of_In, !filter_In, <- list_elem_of_In. intuition.
    - rewrite list_elem_of_In, filter_In, <- list_elem_of_In. intuition. discriminate. }
  split; [|split].
  - intros a Ha. apply Hkept. rewrite Hsel in Ha.
    destruct (Site.limit o =? 0)%Z; [exact Ha|].
    by apply (elem_of_sublist _ _ _ Ha), slice0_sublist.
  - intros Hl. rewrite Hsel. destruct (Site.limit o =? 0)%Z eqn:H0.
    { apply Z.eqb_eq in H0. lia. }
    unfold Site.slice0. assert (Hn : (Site.limit o <? 0)%Z = false) by (apply Z.ltb_ge; lia).
    rewrite Hn, length_take. lia.
  - intros H0 a Ha Hp Hfeat. rewrite Hsel, H0. cbn [Z.eqb]. apply Hkept. auto.
Qed.


(** X23. Sorting the events by date keeps the stored order among events
    of the same date. *)
Theorem same_day_events_keep_stored_order
        (Date_parse : string -> option Z) (now t : Z) (stored : list Item) :
  List.filter (at_time Date_parse t)
              (Site.select_events Date_parse now stored Site.no_options)
  = List.filter (at_time Date_parse t)
                (List.filter (Site.upcoming Date_parse now) stored).
Proof.
  unfold Site.select_events. cbn [Site.limit Site.no_options Z.eqb].
  apply sort_filter. intros a b Ha Hb.
  unfold at_time in *. apply bool_decide_eq_true in Ha, Hb.
  unfold Site.by_date. unfold Site.time_of in *. rewrite Ha, Hb. lia.
Qed.

(** ** Generated ids, and deletes the store rejects *)

Section Ids.

Lemma to_int_not_nil (n : Z) :
  Z.to_int n <> Decimal.Pos Decimal.Nil /\ Z.to_int n <> Decimal.Neg Decimal.Nil.
Proof.
  split; intros H;
    (assert (Hn : n = 0%Z) by (by rewrite <- (DecimalZ.of_to n), H));
    subst n; discriminate H.
Qed.

Lemma string_of_Z_inj (n n' : Z) : string_of_Z n = string_of_Z n' -> n = n'.
Proof.
  unfold string_of_Z. intros H. apply DecimalZ.to_int_inj.
  destruct (to_int_not_nil n) as [Hp Hn], (to_int_not_nil n') as [Hp' Hn'].
  pose proof (NilZero.isi _ Hp Hn) as E. rewrite H in E.
  rewrite (NilZero.isi _ Hp' Hn') in E. by injection E.
Qed.

Lemma append_inj_r (p a b : string) : (p ++ a = p ++ b)%string -> a = b.
Proof. induction p as [|c p IH]; [done|]. intros [= H]. by apply IH. Qed.

Lemma record_id_new_inj (k : Kind) (now now' : Z) :
  record_id k "" now = record_id k "" now' -> now = now'.
Proof.
  unfold record_id. cbn [String.eqb]. intros H.
  by apply string_of_Z_inj, (append_inj_r (kind_prefix k)).
Qed.

End Ids.

(** X25. Records created at different times get different ids, so a new
    record is prepended and replaces nothing when the records present
    were created, with generated ids, at other times. *)
Theorem new_records_get_distinct_ids
        (k : Kind) (now now' : Z) (fields : jsobj) (xs : list Item) :
  now <> now' ->
  record_id k "" now <> record_id k "" now'
  /\ ((forall a, a ∈ xs ->
                 exists t, t <> now' /\ item_id a = Some (JStr (record_id k "" t))) ->
      upsert xs (record_id k "" now') (record_of k "" now' fields)
      = record_of k "" now' fields :: xs).
Proof.
  intros Hne. split.
  - intros H. by apply Hne, (record_id_new_inj k).
  - intros Hxs. apply upsert_fresh, findIndex_None. intros a Ha.
    apply id_is_false. destruct (Hxs a Ha) as (t & Ht & ->).
    intros [= H]. by apply Ht, (record_id_new_inj k).
Qed.

(** X26. A delete whose write the store does not accept changes nothing
    in the cache: the record is still shown and found, the revision is
    the old one, the error is notified, and the next save sends a
    document that still holds the record. *)
Theorem rejected_delete_keeps_the_record
        (net : list Request -> Request -> FetchOutcome) (w : World) (type id : string)
        (k : Kind) (l : loc) (e : exn)
        (formId : string) (now : Z) (fields : jsobj) :
  cache_in_store w ->
  deleteContext w = (type, id) ->
  kind_of_type type = Some k ->
  slot k (content w) ≫= items = Some l ->
  let q := write_request (github w) (kind_path k)
                         (JObj [(kind_key k, JArr (map JObj (remove (grid k w) id)))])
                         (slot k (content w) ≫= sha) in
  save_result (net (requests w) q) = Throw e ->
  let w' := exec (executeDelete net) w in
  requests w' = (requests w ++ [q])%list
  /\ cache_view w' = cache_view w
  /\ grid k w' = grid k w
  /\ syncStatus w' = "error"
  /\ toasts w' = (toasts w ++ [(("Error deleting item: " ++ exn_message e)%string,
                                "error")])%list
  /\ requests (exec (saveItem net k formId now fields) w')
     = (requests w ++ [q; write_request (github w) (kind_path k)
                            (JObj [(kind_key k,
                                    JArr (map JObj (upsert (grid k w)
                                                           (record_id k formId now)
                                                           (record_of k formId now fields))))])
                            (slot k (content w) ≫= sha)])%list.
Proof.
  intros Hwf Hctx Hk Hl q Hres w'.
  destruct (executeDelete_outcome net w type id k l Hwf Hctx Hk Hl)
    as (Hreq & Hg & Hwf' & Hout).
  fold q in Hreq, Hout. fold w' in Hreq, Hg, Hwf', Hout.
  rewrite Hres in Hout. destruct Hout as (Hs & Ht & Hc & Hgrid).
  split; [exact Hreq|]. split; [|split; [exact Hgrid|split; [exact Hs|split; [exact Ht|]]]].
  - subst w'. unfold exec. destruct Hwf as [Harr Hobj].
    rewrite (executeDelete_cached net w type id k l Hctx Hk Hl). cbn zeta.
    rewrite <- (grid_cached k w l Hl). fold q. rewrite Hres. cbn [snd].
    set (W := with_syncStatus "error" _).
    unfold cache_view. change (content W) with (content w).
    rewrite (config_view_objects W w) by reflexivity.
    rewrite (collection_view_arrays W w (news (content w))),
            (collection_view_arrays W w (projects (content w))),
            (collection_view_arrays W w (events (content w))); [reflexivity|..].
    all: intros d l0 Hd Hl0; subst W;
      cbn [arrays with_syncStatus with_toasts with_requests with_arrays];
      apply lookup_alloc_old.
    + by apply (Harr Event d l0).
    + by apply (Harr Project d l0).
    + by apply (Harr News d l0).
  - destruct (saveItem_outcome net k formId now fields w' Hwf') as (Hreq' & _).
    rewrite Hreq', Hreq, Hgrid, Hc, Hg. by rewrite <- app_assoc.
Qed.

(** ** Further theorems at concrete sessions *)

Lemma loaded_in_store : cache_in_store Examples.loaded.
Proof.
  split.
  - intros k d l Hs Hi. destruct k; cbn in Hs; try discriminate.
    injection Hs as <-. injection Hi as <-. cbn. lia.
  - intros d l Hs. discriminate.
Qed.

Lemma delete_pending_in_store : cache_in_store Sessions.delete_pending.
Proof.
  split.
  - intros k d l Hs Hi. destruct k; cbn in Hs; try discriminate.
    injection Hs as <-. injection Hi as <-. cbn. lia.
  - intros d l Hs. discriminate.
Qed.

Lemma findById_upsert_witness :
  findById (upsert [Examples.cleanup_article; Examples.old_article] "news-1"
                   Examples.edited_article) "news-1"
  = Some Examples.edited_article
  /\ findById (upsert [Examples.cleanup_article; Examples.old_article] "news-1"
                      Examples.edited_article) "news-1700000000000"
     = Some Examples.cleanup_article.
Proof.
  destruct (findById_upsert [Examples.cleanup_article; Examples.old_article] "news-1"
                            Examples.edited_article eq_refl) as [Hsame Hother].
  split; [exact Hsame|].
  rewrite (Hother "news-1700000000000"); [reflexivity | discriminate].
Defined.

Lemma upsert_twice_witness :
  upsert (upsert [Examples.old_article] "news-1700000000000" Examples.cleanup_article)
         "news-1700000000000" Sessions.retitled_article
  = [Sessions.retitled_article; Examples.old_article].
Proof.
  rewrite (upsert_twice [Examples.old_article] "news-1700000000000"
                        Examples.cleanup_article Sessions.retitled_article eq_refl).
  reflexivity.
Defined.

Lemma remove_upsert_witness :
  remove (upsert [Examples.old_article] "news-1700000000000" Examples.cleanup_article)
         "news-1700000000000"
  = [Examples.old_article].
Proof.
  destruct (remove_upsert [Examples.old_article] "news-1700000000000"
                          Examples.cleanup_article eq_refl) as [_ Hfresh].
  apply Hfresh. intros a Ha. apply list_elem_of_singleton in Ha. subst a. discriminate.
Defined.


Lemma next_write_sends_returned_revision_witness :
  let w1 := exec (saveItem Examples.empty_store News "" 1700000000000
                           Sessions.cleanup_fields) Examples.loaded in
  requests (exec (confirmDelete "news" "news-1" >> executeDelete Examples.empty_store) w1)
  = [write_request Examples.admin "content/news.json"
       (JObj [("articles", JArr [JObj Examples.cleanup_article; JObj Examples.old_article])])
       (Some "abc");
     write_request Examples.admin "content/news.json"
       (JObj [("articles", JArr [JObj Examples.cleanup_article])])
       (Some "r1")].
Proof.
  intros w1.
  destruct (next_write_sends_returned_revision Examples.empty_store News
              "" 1700000000000 Sessions.cleanup_fields
              "" 1700000000001 Sessions.cleanup_fields "news" "news-1"
              Examples.loaded _ (Some "r1")
              loaded_in_store eq_refl eq_refl eq_refl eq_refl) as [_ Hdel].
  exact Hdel.
Defined.

Lemma saves_and_deletes_keep_ids_distinct_witness :
  NoDup (item_id <$> grid News
           (exec (saveItem Examples.empty_store News "" 1700000000000
                           Sessions.cleanup_fields) Examples.loaded))
  /\ NoDup (item_id <$> grid News
              (exec (confirmDelete "news" "news-1" >> executeDelete Examples.empty_store)
                    Examples.loaded)).
Proof.
  assert (Hnd : NoDup (item_id <$> grid News Examples.loaded)).
  { change (NoDup [Some (JStr "news-1")]). apply NoDup_singleton. }
  destruct (saves_and_deletes_keep_ids_distinct Examples.empty_store News Examples.loaded
              loaded_in_store Hnd) as [Hsave Hdel].
  split; [apply Hsave | apply (Hdel "news" "news-1" eq_refl)].
Defined.


Lemma failed_save_stays_in_next_document_witness :
  let retry now := saveItem Sessions.offline News "" now Sessions.cleanup_fields in
  requests (exec (retry 1700000000001%Z) (exec (retry 1700000000000%Z) Examples.loaded))
  = [write_request Examples.admin "content/news.json"
       (JObj [("articles", JArr [JObj Examples.cleanup_article; JObj Examples.old_article])])
       (Some "abc");
     write_request Examples.admin "content/news.json"
       (JObj [("articles", JArr [JObj Sessions.second_article;
                                 JObj Examples.cleanup_article;
                                 JObj Examples.old_article])])
       (Some "abc")].
Proof.
  intros retry.
  destruct (failed_save_stays_in_next_document Sessions.offline News
              "" 1700000000000 Sessions.cleanup_fields
              "" 1700000000001 Sessions.cleanup_fields
              Examples.loaded 0 "Failed to fetch"
              loaded_in_store eq_refl eq_refl) as [Hreq _].
  exact Hreq.
Defined.

Lemma refused_login_stores_nothing_witness :
  let w' := exec (handleLogin Examples.deny Examples.admin) (initial_world None) in
  github w' = no_credentials
  /\ localStorage w' = None
  /\ dashboard w' = false
  /\ requests w' = [probe_request Examples.admin]
  /\ loginError w' = "Invalid credentials or repository not found".
Proof.
  intros w'.
  destruct (refused_login_stores_nothing Examples.deny Examples.admin (initial_world None)
              eq_refl) as (Hg & Hl & _ & Hd & Hr & He).
  split; [exact Hg|]. split; [exact Hl|]. split; [exact Hd|]. split; [exact Hr | exact He].
Defined.

Lemma reload_follows_stored_credentials_witness :
  let saved := localStorage (exec (handleLogin Examples.one_news Examples.admin)
                                  (initial_world None)) in
  let w' := exec (init Examples.empty_store) (initial_world saved) in
  saved = Some Examples.admin
  /\ github w' = Examples.admin
  /\ dashboard w' = true
  /\ requests w' = load_requests Examples.admin.
Proof.
  intros saved w'.
  destruct (reload_follows_stored_credentials Examples.one_news Examples.empty_store
              Examples.admin (initial_world None) _ eq_refl eq_refl)
    as (Hs & Hg & Hd & Hr & _).
  split; [exact Hs|]. split; [exact Hg|]. split; [exact Hd | exact Hr].
Defined.

Lemma image_list_holds_images_witness :
  all_images (images Sessions.with_photo)
  /\ images (exec (loadImages Sessions.gallery) Sessions.with_photo) = [Sessions.photo]
  /\ all_images (images (exec (loadImages Sessions.gallery) Sessions.with_photo))
  /\ all_images (images (exec (loadAllContent Sessions.gallery) Sessions.with_photo)).
Proof.
  assert (Hold : all_images (images Sessions.with_photo)).
  { apply Forall_cons; split; [reflexivity | apply Forall_nil_2]. }
  destruct (image_list_holds_images Sessions.gallery Sessions.with_photo Hold)
    as (Hlist & _ & Hload).
  split; [exact Hold|]. split; [reflexivity|]. split; [exact Hlist | exact Hload].
Defined.


Lemma site_file_is_fetched_once_witness :
  let w1 := snd (Site.fetchContent Examples.events_site "events.json"
                                   Examples.fresh_page) in
  Site.fetched w1 = ["content/events.json"]
  /\ fst (Site.fetchContent Examples.events_site "events.json" w1)
     = Some (JObj [("events", JArr (map JObj Examples.stored_events))])
  /\ snd (Site.fetchContent Examples.events_site "events.json" w1) = w1.
Proof.
  intros w1.
  destruct (site_file_is_fetched_once Examples.events_site "events.json"
              Examples.fresh_page eq_refl) as (Hfst & Hsnd & _).
  split; [reflexivity|]. split; [exact Hfst | exact Hsnd].
Defined.

Lemma site_failure_is_retried_witness :
  let w1 := snd (Site.fetchContent Examples.events_site "news.json"
                                   Examples.fresh_page) in
  Site.cache w1 = []
  /\ Site.fetched (snd (Site.fetchContent Examples.events_site "news.json" w1))
     = ["content/news.json"; "content/news.json"].
Proof.
  intros w1.
  destruct (site_failure_is_retried Examples.events_site "news.json"
              Examples.fresh_page eq_refl) as (Hc & _ & _ & Hf).
  split; [exact Hc | exact Hf].
Defined.

Lemma configured_in_store : cache_in_store Examples.configured.
Proof.
  split.
  - intros k d l Hs Hi. destruct k; cbn in Hs; try discriminate.
    injection Hs as <-. injection Hi as <-. cbn. lia.
  - intros d l Hs Hi. cbn in Hs. injection Hs as <-. injection Hi as <-. cbn. lia.
Qed.

Lemma same_settings_saved_twice_witness :
  let doc := JObj (apply_settings Examples.settings_form [("siteName", JStr "Old name")]) in
  requests (exec (saveSettings Examples.empty_store Examples.settings_form)
                 (exec (saveSettings Examples.empty_store Examples.settings_form)
                       Examples.configured))
  = [write_request Examples.admin "content/site-config.json" doc (Some "c1");
     write_request Examples.admin "content/site-config.json" doc (Some "r1")].
Proof.
  intros doc.
  destruct (same_settings_saved_twice Examples.empty_store Examples.settings_form
              Examples.configured 0 configured_in_store eq_refl) as [_ Htwice].
  exact Htwice.
Defined.

Lemma new_records_get_distinct_ids_witness :
  record_id News "" 1700000000000 <> record_id News "" 1700000000001
  /\ upsert [Examples.cleanup_article] "news-1700000000001" Sessions.second_article
     = [Sessions.second_article; Examples.cleanup_article].
Proof.
  assert (Hne : 1700000000000%Z <> 1700000000001%Z) by discriminate.
  destruct (new_records_get_distinct_ids News 1700000000000 1700000000001
              Sessions.cleanup_fields [Examples.cleanup_article] Hne) as [Hid Hnew].
  split; [exact Hid|]. apply Hnew. intros a Ha.
  apply list_elem_of_singleton in Ha. subst a.
  exists 1700000000000%Z. split; [discriminate | reflexivity].
Defined.

Lemma rejected_delete_keeps_the_record_witness :
  let w' := exec (executeDelete Sessions.offline) Sessions.delete_pending in
  grid News w' = [Examples.old_article]
  /\ syncStatus w' = "error"
  /\ toasts w' = [("Error deleting item: Failed to fetch", "error")].
Proof.
  intros w'.
  destruct (rejected_delete_keeps_the_record Sessions.offline Sessions.delete_pending
              "news" "news-1" News 0 (JsError "Failed to fetch")
              "" 1700000000000 Sessions.cleanup_fields
              delete_pending_in_store eq_refl eq_refl eq_refl eq_refl)
    as (_ & _ & Hg & Hs & Ht & _).
  split; [exact Hg|]. split; [exact Hs | exact Ht].
Defined.
